(** * petrel/orm: the statement descriptor, the SQL compilers and the row mapper

    A shallow embedding of [orm/orm.go].  Go strings are byte strings
    ([String.string]), Go [int]s are integers ([Z]; the code only compares and
    prints them), reflection types and values are small inductive types, and
    the methods that mutate the descriptor, talk to the storage handle or may
    panic live in a state monad whose state is the descriptor together with
    the trace of storage calls.

    The storage handle, the [Scan] of the driver, [fmt.Sprintf] and the range
    table of [unicode.IsUpper] above Latin-1 are parameters.  Logging is left
    out, and so are kinds other than bool, int, int64, string, pointer, slice
    and struct. *)

From Stdlib Require Import ZArith List String Ascii Bool Lia.
From Stdlib Require Import Numbers.DecimalString.
Import ListNotations.

Set Warnings "-register-all".

Open Scope string_scope.
Open Scope Z_scope.

(** ** The parts of the Go library the package calls *)

(** [range] over a string: the string is decoded rune by rune as UTF-8; a byte
    that does not start a well-formed sequence yields [RuneError] and is
    consumed alone (package [unicode/utf8], [DecodeRuneInString]). *)
Module utf8.

Definition RuneError : Z := 0xFFFD.

Definition byte_val (a : ascii) : Z := Z.of_N (N_of_ascii a).

Definition between (lo hi b : Z) : bool := (lo <=? b) && (b <=? hi).

(** The [first] table for the lead bytes of multi-byte sequences: the size of
    the sequence and the range accepted for its second byte. *)
Definition first (s0 : Z) : option (Z * Z * Z) :=
  if between 0xC2 0xDF s0 then Some (2, 0x80, 0xBF)
  else if s0 =? 0xE0 then Some (3, 0xA0, 0xBF)
  else if between 0xE1 0xEC s0 then Some (3, 0x80, 0xBF)
  else if s0 =? 0xED then Some (3, 0x80, 0x9F)
  else if between 0xEE 0xEF s0 then Some (3, 0x80, 0xBF)
  else if s0 =? 0xF0 then Some (4, 0x90, 0xBF)
  else if between 0xF1 0xF3 s0 then Some (4, 0x80, 0xBF)
  else if s0 =? 0xF4 then Some (4, 0x80, 0x8F)
  else None.

Definition low6 (b : Z) : Z := Z.land b 0x3F.

Fixpoint runes (s : string) : list Z :=
  match s with
  | EmptyString => []
  | String a0 t =>
    let s0 := byte_val a0 in
    if s0 <? 0x80 then s0 :: runes t
    else
      match first s0 with
      | None => RuneError :: runes t
      | Some (sz, lo, hi) =>
        match t with
        | EmptyString => RuneError :: runes t
        | String a1 t1 =>
          let s1 := byte_val a1 in
          if negb (between lo hi s1) then RuneError :: runes t
          else if sz <=? 2 then
            Z.lor (Z.shiftl (Z.land s0 0x1F) 6) (low6 s1) :: runes t1
          else
            match t1 with
            | EmptyString => RuneError :: runes t
            | String a2 t2 =>
              let s2 := byte_val a2 in
              if negb (between 0x80 0xBF s2) then RuneError :: runes t
              else if sz <=? 3 then
                Z.lor (Z.shiftl (Z.land s0 0x0F) 12)
                  (Z.lor (Z.shiftl (low6 s1) 6) (low6 s2)) :: runes t2
              else
                match t2 with
                | EmptyString => RuneError :: runes t
                | String a3 t3 =>
                  let s3 := byte_val a3 in
                  if negb (between 0x80 0xBF s3) then RuneError :: runes t
                  else
                    Z.lor (Z.shiftl (Z.land s0 0x07) 18)
                      (Z.lor (Z.shiftl (low6 s1) 12)
                         (Z.lor (Z.shiftl (low6 s2) 6) (low6 s3))) :: runes t3
                end
            end
        end
      end
  end.

End utf8.

Module unicode.

(** [unicode.IsUpper]: up to [MaxLatin1] the answer comes from the Latin-1
    property table (A-Z, U+00C0-U+00D6, U+00D8-U+00DE); above it from the
    range table of category Lu, which is data of package [unicode] and is
    taken as the parameter [upper_table]. *)
Definition MaxLatin1 : Z := 0xFF.

Definition IsUpper (upper_table : Z -> bool) (r : Z) : bool :=
  if r <=? MaxLatin1 then
    utf8.between 0x41 0x5A r || utf8.between 0xC0 0xD6 r || utf8.between 0xD8 0xDE r
  else upper_table r.

End unicode.

Module strings.

(** [strings.Contains s sep] for a one-byte separator. *)
Fixpoint ContainsByte (s : string) (c : ascii) : bool :=
  match s with
  | EmptyString => false
  | String a t => Ascii.eqb a c || ContainsByte t c
  end.

(** [strings.Split(s, sep)[0]] for a one-byte separator: what precedes the
    first separator, the whole string when there is none. *)
Fixpoint SplitFirst (s : string) (c : ascii) : string :=
  match s with
  | EmptyString => EmptyString
  | String a t => if Ascii.eqb a c then EmptyString else String a (SplitFirst t c)
  end.

End strings.

Module fmt.

(** The verb [%d] on an [int]. *)
Definition d (n : Z) : string := NilZero.string_of_int (Z.to_int n).

End fmt.

(** ** Name resolver *)

Section NameResolver.

Variable upper_table : Z -> bool.

Definition to_byte (c : Z) : ascii := ascii_of_N (Z.to_N (c mod 256)).

(** One round of the loop of [FieldEscape]; the state is [(buf, up)]. *)
Definition escape_rune (st : string * bool) (c : Z) : string * bool :=
  let '(buf, up) := st in
  if unicode.IsUpper upper_table c then
    let buf := if negb up then buf ++ "_" else buf in
    let c := c + 32 in
    (buf ++ String (to_byte c) "", true)
  else
    (buf ++ String (to_byte c) "", false).

Definition FieldEscape (k : string) : string :=
  fst (fold_left escape_rune (utf8.runes k) ("", true)).

End NameResolver.

(** The conversion as the specification words it, on the letters A-Z: an upper
    case letter is replaced by its lower case letter, preceded by an
    underscore unless it is the first character or follows an upper case
    letter; any other character is kept. *)
Definition upper_letter (a : ascii) : bool :=
  (65 <=? nat_of_ascii a)%nat && (nat_of_ascii a <=? 90)%nat.

Definition lower_of (a : ascii) : ascii :=
  match a with
  | "A" => "a" | "B" => "b" | "C" => "c" | "D" => "d" | "E" => "e" | "F" => "f"
  | "G" => "g" | "H" => "h" | "I" => "i" | "J" => "j" | "K" => "k" | "L" => "l"
  | "M" => "m" | "N" => "n" | "O" => "o" | "P" => "p" | "Q" => "q" | "R" => "r"
  | "S" => "s" | "T" => "t" | "U" => "u" | "V" => "v" | "W" => "w" | "X" => "x"
  | "Y" => "y" | "Z" => "z" | _ => a
  end%char.

Fixpoint snake_from (prev : option ascii) (k : string) : string :=
  match k with
  | EmptyString => EmptyString
  | String a t =>
    (if upper_letter a then
       match prev with
       | None => String (lower_of a) ""
       | Some p => if upper_letter p then String (lower_of a) ""
                   else String "_" (String (lower_of a) "")
       end
     else String a "") ++ snake_from (Some a) t
  end.

Definition snake_case (k : string) : string := snake_from None k.

Fixpoint ascii_only (k : string) : bool :=
  match k with
  | EmptyString => true
  | String a t => (nat_of_ascii a <? 128)%nat && ascii_only t
  end.

(** ** Results, reflection, buffers, errors and the storage handle *)

(** A call either returns or panics. *)
Inductive Res (A : Type) : Type :=
| Ret (a : A)
| Panic (msg : string).
Arguments Ret {A} a.
Arguments Panic {A} msg.

Definition res_bind {A B} (r : Res A) (k : A -> Res B) : Res B :=
  match r with
  | Ret a => k a
  | Panic msg => Panic msg
  end.

Module bytes.

(** [bytes.Buffer]: the content is a string; [Truncate(n)] keeps the first
    [n] bytes and panics when [n] is out of range. *)
Fixpoint take (n : nat) (b : string) : string :=
  match n, b with
  | S n', String a t => String a (take n' t)
  | _, _ => EmptyString
  end.

Definition Len (b : string) : Z := Z.of_nat (String.length b).

Definition Truncate (b : string) (n : Z) : Res string :=
  if (n <? 0) || (Len b <? n) then Panic "bytes.Buffer: truncation out of range"
  else Ret (take (Z.to_nat n) b).

End bytes.

Module reflect.

Inductive Kind : Set :=
| Invalid | Bool | Int | Int64 | String_ | Ptr | Slice | Struct.

Definition Kind_String (k : Kind) : string :=
  match k with
  | Invalid => "invalid" | Bool => "bool" | Int => "int" | Int64 => "int64"
  | String_ => "string" | Ptr => "ptr" | Slice => "slice" | Struct => "struct"
  end.

Definition Kind_eqb (a b : Kind) : bool :=
  match a, b with
  | Invalid, Invalid | Bool, Bool | Int, Int | Int64, Int64
  | String_, String_ | Ptr, Ptr | Slice, Slice | Struct, Struct => true
  | _, _ => false
  end.

(** [reflect.Type] and [reflect.StructField].  A tag is kept as the list of
    its key/value pairs. *)
Inductive Type_ : Type :=
| TBool | TInt | TInt64 | TString
| TPtr (elem : Type_)
| TSlice (elem : Type_)
| TStruct (fields : list StructField)
with StructField : Type :=
| mkField (name pkgPath : string) (anonymous : bool)
          (tag : list (string * string)) (typ : Type_).

Definition Name (f : StructField) := let 'mkField n _ _ _ _ := f in n.
Definition PkgPath (f : StructField) := let 'mkField _ p _ _ _ := f in p.
Definition Anonymous (f : StructField) := let 'mkField _ _ a _ _ := f in a.
Definition Tag (f : StructField) := let 'mkField _ _ _ t _ := f in t.
Definition FieldType (f : StructField) := let 'mkField _ _ _ _ t := f in t.

(** [StructTag.Get]: the value of the first pair with that key, the empty
    string when there is none. *)
Fixpoint Get (tag : list (string * string)) (key : string) : string :=
  match tag with
  | [] => ""
  | (k, v) :: rest => if String.eqb k key then v else Get rest key
  end.

Definition KindOf (t : Type_) : Kind :=
  match t with
  | TBool => Bool | TInt => Int | TInt64 => Int64 | TString => String_
  | TPtr _ => Ptr | TSlice _ => Slice | TStruct _ => Struct
  end.

(** [Type.Elem] panics unless the type is a pointer or a slice (arrays,
    channels and maps are not modelled). *)
Definition Elem (t : Type_) : Res Type_ :=
  match t with
  | TPtr e | TSlice e => Ret e
  | _ => Panic "reflect: Elem of invalid type"
  end.

(** [Type.NumField] and [Type.Field] panic unless the type is a struct; the
    loops [for i := 0; i < rt.NumField(); i++ { rt.Field(i) }] run over
    [Fields]. *)
Definition Fields (t : Type_) : Res (list StructField) :=
  match t with
  | TStruct fs => Ret fs
  | _ => Panic "reflect: NumField of non-struct type"
  end.

Definition NumField (t : Type_) : Res Z :=
  res_bind (Fields t) (fun fs => Ret (Z.of_nat (List.length fs))).

(** Values.  A pointer is modelled by the content of the variable it points
    to; [VNil] is the nil pointer. *)
Inductive Value : Type :=
| VBool (b : bool)
| VInt (n : Z)
| VString (s : string)
| VNil
| VPtr (pointee : Value)
| VSlice (elems : list Value)
| VStruct (fields : list Value).

(** [reflect.New(t).Elem()]: the zero value of [t]. *)
Fixpoint Zero (t : Type_) : Value :=
  match t with
  | TBool => VBool false
  | TInt | TInt64 => VInt 0
  | TString => VString ""
  | TPtr _ => VNil
  | TSlice _ => VSlice []
  | TStruct fs =>
    VStruct ((fix zeros (l : list StructField) : list Value :=
                match l with
                | [] => []
                | mkField _ _ _ _ ft :: l' => Zero ft :: zeros l'
                end) fs)
  end.

(** [Value.Elem] of a pointer: the variable it points to; the zero [Value]
    ([None]) for a nil pointer. *)
Definition ValueElem (v : Value) : option Value :=
  match v with
  | VPtr p => Some p
  | _ => None
  end.

(** [Value.Field(i)] of a struct value. *)
Definition Field (v : option Value) (i : nat) : Res Value :=
  match v with
  | Some (VStruct vs) =>
    match nth_error vs i with
    | Some x => Ret x
    | None => Panic "reflect: Field index out of range"
    end
  | _ => Panic "reflect: call of reflect.Value.Field on non-struct Value"
  end.

(** [Value.Interface] (also after [Addr]) refuses a value that was reached
    through an unexported field: [Value.Field] marks the field read-only
    when its name is unexported, which is when [PkgPath] is not empty. *)
Definition Interface {A} (f : StructField) (x : A) : Res A :=
  if String.eqb (PkgPath f) "" then Ret x
  else Panic "reflect.Value.Interface: cannot return value obtained from unexported field or method".

(** [reflect.Append] on a slice value. *)
Definition Append (v : option Value) (x : Value) : Res (option Value) :=
  match v with
  | Some (VSlice l) => Ret (Some (VSlice (l ++ [x])))
  | _ => Panic "reflect: call of reflect.Append on non-slice Value"
  end.

(** [Value.Len] on a slice value. *)
Definition Len (v : option Value) : Res Z :=
  match v with
  | Some (VSlice l) => Ret (Z.of_nat (List.length l))
  | _ => Panic "reflect: call of reflect.Value.Len on non-slice Value"
  end.

(** An [interface{}] argument that is not nil: its dynamic type and its
    value. *)
Record iface : Type := Iface { TypeOf : Type_; ValueOf : Value }.

End reflect.

Module sql.

(** The storage handle [*sql.DB]: what a query and an execution answer.  The
    cursor of a query is the list of its rows. *)
Record Result (err : Type) : Type :=
  { LastInsertId : Z * option err; RowsAffected : Z * option err }.

Record DB (row err : Type) : Type :=
  { Query : string -> err + list row;
    Exec : string -> list reflect.Value -> err + Result err }.

Arguments LastInsertId {err} _.
Arguments RowsAffected {err} _.
Arguments Query {row err} _ _.
Arguments Exec {row err} _ _ _.

(** What reaches the storage handle and its cursor. *)
Inductive event : Type :=
| DBQuery (text : string)
| DBExec (text : string) (args : list reflect.Value)
| RowsNext
| RowsScan
| RowsClose.

End sql.

(** Errors: [errors.New], [fmt.Errorf], an error of the driver, and
    [errors.Trace] around an error. *)
Inductive error (err : Type) : Type :=
| New (msg : string)
| Errorf (msg : string)
| Driver (e : err)
| Trace (e : error err).
Arguments New {err} msg.
Arguments Errorf {err} msg.
Arguments Driver {err} e.
Arguments Trace {err} e.

(** [errors.Cause]: the error under the traces. *)
Fixpoint Cause {err} (e : error err) : error err :=
  match e with
  | Trace e' => Cause e'
  | _ => e
  end.

(** ** Package orm *)

Module orm.
Section Orm.

(** The range table of [unicode.IsUpper] above Latin-1, the rows and errors
    of the driver, its [Scan] (given a row and the types of the
    destinations, the values it stores or its error) and [fmt.Sprintf]. *)
Variable upper_table : Z -> bool.
Variables row driver_error : Type.
Variable Scan : row -> list reflect.Type_ -> driver_error + list reflect.Value.
Variable Sprintf : string -> list reflect.Value -> string.

Abbreviation err := (error driver_error).
Abbreviation FieldEscape := (FieldEscape upper_table).

Definition ErrNotFound : err := New "not found".

Record Stmt : Type := mkStmt
  { table : string;
    where_ : string;
    sort : string;
    order : string;
    group : string;
    offset : Z;
    limit : Z;
    db : sql.DB row driver_error }.

Definition NewStmt (d : sql.DB row driver_error) (t : string) : Stmt :=
  mkStmt t "" "" "" "" 0 0 d.

Definition set_where (s : Stmt) (x : string) : Stmt :=
  mkStmt (table s) x (sort s) (order s) (group s) (offset s) (limit s) (db s).
Definition set_sort (s : Stmt) (x : string) : Stmt :=
  mkStmt (table s) (where_ s) x (order s) (group s) (offset s) (limit s) (db s).
Definition set_order (s : Stmt) (x : string) : Stmt :=
  mkStmt (table s) (where_ s) (sort s) x (group s) (offset s) (limit s) (db s).
Definition set_group (s : Stmt) (x : string) : Stmt :=
  mkStmt (table s) (where_ s) (sort s) (order s) x (offset s) (limit s) (db s).
Definition set_offset (s : Stmt) (x : Z) : Stmt :=
  mkStmt (table s) (where_ s) (sort s) (order s) (group s) x (limit s) (db s).
Definition set_limit (s : Stmt) (x : Z) : Stmt :=
  mkStmt (table s) (where_ s) (sort s) (order s) (group s) (offset s) x (db s).

(** *** The monad of the methods

    A method runs on the descriptor it is called on and on the trace of what
    reached the storage handle so far; it returns or panics. *)
Record World : Type := mkWorld { w_stmt : Stmt; w_trace : list sql.event }.

Definition M (A : Type) : Type := World -> World * Res A.

Definition ret {A} (a : A) : M A := fun w => (w, Ret a).

Definition bind {A B} (m : M A) (k : A -> M B) : M B :=
  fun w =>
    match m w with
    | (w', Ret a) => k a w'
    | (w', Panic msg) => (w', Panic msg)
    end.

Definition lift {A} (r : Res A) : M A := fun w => (w, r).

Definition self : M Stmt := fun w => (w, Ret (w_stmt w)).

Definition modify (f : Stmt -> Stmt) : M unit :=
  fun w => (mkWorld (f (w_stmt w)) (w_trace w), Ret tt).

Definition emit (e : sql.event) : M unit :=
  fun w => (mkWorld (w_stmt w) (w_trace w ++ [e]), Ret tt).

(** [defer rows.Close()]: the cursor is released when the body is left, by a
    return or by a panic. *)
Definition defer_Close {A} (body : M A) : M A :=
  fun w =>
    let '(w', r) := body w in
    (mkWorld (w_stmt w') (w_trace w' ++ [sql.RowsClose]), r).

Notation "'do' x <- m ; k" := (bind m (fun x => k))
  (at level 10, x name, m at level 100, k at level 200).
Notation "'do' ' p <- m ; k" := (bind m (fun x => let 'p := x in k))
  (at level 10, p pattern, m at level 100, k at level 200).
Notation "m ;; k" := (bind m (fun _ => k))
  (at level 200, k at level 200, right associativity).
Notation "'try' x <- r ; k" := (res_bind r (fun x => k))
  (at level 10, x name, r at level 100, k at level 200).

(** *** The builder *)

Definition Where (f : string) (args : list reflect.Value) : M unit :=
  match args with
  | _ :: _ => modify (fun s => set_where s (Sprintf f args))
  | [] => modify (fun s => set_where s f)
  end.
Definition Sort (x : string) : M unit := modify (fun s => set_sort s x).
Definition Group (x : string) : M unit := modify (fun s => set_group s x).
Definition Order (x : string) : M unit := modify (fun s => set_order s x).
Definition Offset (x : Z) : M unit := modify (fun s => set_offset s x).
Definition Limit (x : Z) : M unit := modify (fun s => set_limit s x).

(** *** SQLCondition: where, order, group, limit appended to the buffer *)
Definition SQLCondition (s : Stmt) (bs : string) : string :=
  let bs := if negb (where_ s =? "")%string then bs ++ " where " ++ where_ s else bs in
  let bs :=
    if negb (sort s =? "")%string then
      let bs := bs ++ " order by " ++ sort s in
      if negb (order s =? "")%string then bs ++ " " ++ order s else bs
    else bs in
  let bs := if negb (group s =? "")%string then bs ++ " group by " ++ group s else bs in
  if limit s >? 0 then
    let bs := bs ++ " limit " in
    let bs := if offset s >? 0 then bs ++ fmt.d (offset s) ++ "," else bs in
    bs ++ fmt.d (limit s)
  else bs.

Definition SQLCount (s : Stmt) : string :=
  let bs := "select count(*) from " in
  let bs := bs ++ table s in
  SQLCondition s bs.

(** *** Field metadata *)

(** [f.PkgPath != "" && !f.Anonymous]: the field is passed over. *)
Definition unexported (f : reflect.StructField) : bool :=
  negb (reflect.PkgPath f =? "")%string && negb (reflect.Anonymous f).

(** The column of a field: its [db] tag, else its escaped name. *)
Definition column (f : reflect.StructField) : string :=
  let name := reflect.Get (reflect.Tag f) "db" in
  if (name =? "")%string then FieldEscape (reflect.Name f) else name.

(** *** SQLQuery *)
Fixpoint select_fields (firstTable : string) (fs : list reflect.StructField)
         (bs : string) : string :=
  match fs with
  | [] => bs
  | f :: rest =>
    if unexported f then select_fields firstTable rest bs
    else
      let name := column f in
      let bs := if negb (strings.ContainsByte name ".") then bs ++ firstTable ++ "."
                else bs in
      let bs := bs ++ name ++ ", " in
      select_fields firstTable rest bs
  end.

Definition SQLQuery (s : Stmt) (rt : reflect.Type_) : Res string :=
  let firstTable := strings.SplitFirst (table s) "," in
  let bs := "select " in
  try fs <- reflect.Fields rt ;
  let bs := select_fields firstTable fs bs in
  try bs <- bytes.Truncate bs (bytes.Len bs - 2) ;
  let bs := bs ++ " from " ++ table s in
  Ret (SQLCondition s bs).

(** *** SQLQueryBuilder: the statement and the error it returns *)
Definition SQLQueryBuilder (result : reflect.iface) : M (string * option err) :=
  let rt := reflect.TypeOf result in
  if negb (reflect.Kind_eqb (reflect.KindOf rt) reflect.Ptr) then
    ret ("", Some (Errorf ("result type must be ptr, recv:"
                             ++ reflect.Kind_String (reflect.KindOf rt))))
  else
    do rt <- lift (reflect.Elem rt) ;
    do rt <- (if reflect.Kind_eqb (reflect.KindOf rt) reflect.Slice
              then lift (reflect.Elem rt)
              else (modify (fun s => set_limit s 1) ;; ret rt)) ;
    do n <- lift (reflect.NumField rt) ;
    if n =? 0 then ret ("", Some (Errorf "result not found field"))
    else
      do s <- self ;
      do text <- lift (SQLQuery s rt) ;
      ret (text, None).

(** *** Query *)

(** The destinations of one row: the address of every field that is not
    passed over, taken through [Addr().Interface()]. *)
Fixpoint row_refs (fs : list reflect.StructField) : Res (list reflect.Type_) :=
  match fs with
  | [] => Ret []
  | f :: rest =>
    if unexported f then row_refs rest
    else
      try ft <- reflect.Interface f (reflect.FieldType f) ;
      try refs <- row_refs rest ;
      Ret (ft :: refs)
  end.

(** The fresh record after the scan: the scanned values in the fields that
    were bound, the zero value in the others. *)
Fixpoint scanned (fs : list reflect.StructField) (vals : list reflect.Value)
  : list reflect.Value :=
  match fs with
  | [] => []
  | f :: rest =>
    if unexported f then reflect.Zero (reflect.FieldType f) :: scanned rest vals
    else
      match vals with
      | v :: vals' => v :: scanned rest vals'
      | [] => reflect.Zero (reflect.FieldType f) :: scanned rest []
      end
  end.

(** How the loop over the cursor is left: by a [return] inside it (the record
    assigned to the target, or an error), or by the end of the cursor with
    the collection gathered so far. *)
Inductive loop_exit : Type :=
| Returned (r : reflect.Value + err)
| Exhausted (rv : option reflect.Value).

Fixpoint rows_loop (fs : list reflect.StructField) (kind : reflect.Kind)
         (rv : option reflect.Value) (rows : list row) : M loop_exit :=
  match rows with
  | [] => emit sql.RowsNext ;; ret (Exhausted rv)
  | r :: rest =>
    emit sql.RowsNext ;;
    do refs <- lift (row_refs fs) ;
    emit sql.RowsScan ;;
    match Scan r refs with
    | inl e => ret (Returned (inr (Trace (Driver e))))
    | inr vals =>
      let obj := reflect.VStruct (scanned fs vals) in
      if reflect.Kind_eqb kind reflect.Struct then ret (Returned (inl obj))
      else
        do rv' <- lift (reflect.Append rv obj) ;
        rows_loop fs kind rv' rest
    end
  end.

(** [Query] returns [inl v] when the Go method returns [nil], [v] being the
    value it has stored in the variable the target points to, and [inr e]
    when it returns the error [e], the target being left as it was. *)
Definition Query (result : reflect.iface) : M (reflect.Value + err) :=
  let rt := reflect.TypeOf result in
  if negb (reflect.Kind_eqb (reflect.KindOf rt) reflect.Ptr) then
    ret (inr (Errorf ("result type must be ptr, recv:"
                        ++ reflect.Kind_String (reflect.KindOf rt))))
  else
    do pt <- lift (reflect.Elem rt) ;
    do rt <- (if reflect.Kind_eqb (reflect.KindOf pt) reflect.Slice
              then lift (reflect.Elem pt)
              else (modify (fun s => set_limit s 1) ;; ret pt)) ;
    do n <- lift (reflect.NumField rt) ;
    if n =? 0 then ret (inr (Errorf "result not found field"))
    else
      do s <- self ;
      do text <- lift (SQLQuery s rt) ;
      emit (sql.DBQuery text) ;;
      match sql.Query (db s) text with
      | inl e => ret (inr (Trace (Driver e)))
      | inr rows =>
        defer_Close
          (let rv := reflect.ValueElem (reflect.ValueOf result) in
           let kind := match rv with
                       | Some _ => reflect.KindOf pt
                       | None => reflect.Invalid
                       end in
           do fs <- lift (reflect.Fields rt) ;
           do out <- rows_loop fs kind rv rows ;
           match out with
           | Returned r => ret r
           | Exhausted rv =>
             if reflect.Kind_eqb kind reflect.Struct then ret (inr (Trace ErrNotFound))
             else
               do len <- lift (reflect.Len rv) ;
               if len =? 0 then ret (inr (Trace ErrNotFound))
               else
                 match rv with
                 | Some v => ret (inl v)
                 | None => lift (Panic "reflect: call of reflect.Value.Interface on zero Value")
                 end
           end)
      end.

(** *** SQLInsert, SQLUpdate *)

(** The loop of [SQLInsert] from field [i] on; [bs] collects the columns,
    [dbs] the values, [refs] the bound arguments. *)
Fixpoint insert_fields (rv : option reflect.Value) (i : nat)
         (fs : list reflect.StructField) (bs dbs : string)
         (refs : list reflect.Value)
  : Res (string * string * list reflect.Value) :=
  match fs with
  | [] => Ret (bs, dbs, refs)
  | f :: rest =>
    if unexported f then insert_fields rv (S i) rest bs dbs refs
    else
      let def := reflect.Get (reflect.Tag f) "db_default" in
      if (def =? "auto")%string then insert_fields rv (S i) rest bs dbs refs
      else
        let name := column f in
        let bs := bs ++ name in
        let bs := bs ++ ", " in
        if negb (def =? "")%string then
          let dbs := dbs ++ def in
          let dbs := dbs ++ ", " in
          insert_fields rv (S i) rest bs dbs refs
        else
          let dbs := dbs ++ "?, " in
          try v <- reflect.Field rv i ;
          try x <- reflect.Interface f v ;
          insert_fields rv (S i) rest bs dbs (refs ++ [x])
  end.

Definition SQLInsert (s : Stmt) (rt : reflect.Type_) (rv : option reflect.Value)
  : Res (string * list reflect.Value) :=
  let bs := "insert into " in
  let bs := bs ++ table s in
  let bs := bs ++ " (" in
  let dbs := ") values (" in
  try fs <- reflect.Fields rt ;
  try out <- insert_fields rv 0 fs bs dbs [] ;
  let '(bs, dbs, refs) := out in
  try bs <- bytes.Truncate bs (bytes.Len bs - 2) ;
  try dbs <- bytes.Truncate dbs (bytes.Len dbs - 2) ;
  let bs := bs ++ dbs in
  let bs := bs ++ ") " in
  Ret (bs, refs).

Fixpoint update_fields (rv : option reflect.Value) (i : nat)
         (fs : list reflect.StructField) (bs : string)
         (refs : list reflect.Value)
  : Res (string * list reflect.Value) :=
  match fs with
  | [] => Ret (bs, refs)
  | f :: rest =>
    if unexported f then update_fields rv (S i) rest bs refs
    else
      let def := reflect.Get (reflect.Tag f) "db_default" in
      if (def =? "auto")%string then update_fields rv (S i) rest bs refs
      else
        let name := column f in
        let bs := bs ++ "`" ++ name ++ "`=" in
        if negb (def =? "")%string then
          let bs := bs ++ def ++ ", " in
          update_fields rv (S i) rest bs refs
        else
          let bs := bs ++ "?, " in
          try v <- reflect.Field rv i ;
          try x <- reflect.Interface f v ;
          update_fields rv (S i) rest bs (refs ++ [x])
  end.

Definition SQLUpdate (s : Stmt) (rt : reflect.Type_) (rv : option reflect.Value)
  : Res (string * list reflect.Value) :=
  let bs := "" in
  let bs := bs ++ "update `" ++ table s ++ "` set " in
  try fs <- reflect.Fields rt ;
  try out <- update_fields rv 0 fs bs [] ;
  let '(bs, refs) := out in
  try bs <- bytes.Truncate bs (bytes.Len bs - 2) ;
  Ret (SQLCondition s bs, refs).

(** *** Update, Insert: the count or the id, and the error *)

(** [data] may be a record or a pointer to one. *)
Definition deref (data : reflect.iface) : Res (reflect.Type_ * option reflect.Value) :=
  let rt := reflect.TypeOf data in
  let rv := Some (reflect.ValueOf data) in
  if reflect.Kind_eqb (reflect.KindOf rt) reflect.Ptr then
    try rt <- reflect.Elem rt ;
    Ret (rt, reflect.ValueElem (reflect.ValueOf data))
  else Ret (rt, rv).

Definition Update (data : reflect.iface) : M (Z * option err) :=
  do ' (rt, rv) <- lift (deref data) ;
  do n <- lift (reflect.NumField rt) ;
  if n =? 0 then ret (0, Some (Errorf "data not found field"))
  else
    do s <- self ;
    do ' (text, refs) <- lift (SQLUpdate s rt rv) ;
    emit (sql.DBExec text refs) ;;
    match sql.Exec (db s) text refs with
    | inl e => ret (0, Some (Trace (Driver e)))
    | inr r =>
      let '(n, e) := sql.RowsAffected r in
      ret (n, option_map Driver e)
    end.

Definition Insert (data : reflect.iface) : M (Z * option err) :=
  do ' (rt, rv) <- lift (deref data) ;
  do n <- lift (reflect.NumField rt) ;
  if n =? 0 then ret (0, Some (Errorf "data not found field"))
  else
    do s <- self ;
    do ' (text, refs) <- lift (SQLInsert s rt rv) ;
    emit (sql.DBExec text refs) ;;
    match sql.Exec (db s) text refs with
    | inl e => ret (0, Some (Trace (Driver e)))
    | inr r =>
      let '(n, e) := sql.LastInsertId r in
      ret (n, option_map Driver e)
    end.

(** *** Count: the number and the error *)

(** What [rows.Scan] answers once [rows.Next] has reached the end of the
    cursor and closed it (package [database/sql]). *)
Definition errRowsClosed : err := New "sql: Rows are closed".

(** The result of [rows.Next] is not looked at; the one destination is an
    [int64] that starts at 0. *)
Definition Count : M (Z * option err) :=
  do s <- self ;
  let text := SQLCount s in
  emit (sql.DBQuery text) ;;
  match sql.Query (db s) text with
  | inl e => ret (0, Some (Trace (Driver e)))
  | inr rows =>
    defer_Close
      (emit sql.RowsNext ;;
       emit sql.RowsScan ;;
       match rows with
       | [] => ret (0, Some (Trace errRowsClosed))
       | r :: _ =>
         match Scan r [reflect.TInt64] with
         | inl e => ret (0, Some (Trace (Driver e)))
         | inr vals =>
           ret (match vals with
                | reflect.VInt n :: _ => n
                | _ => 0
                end, None)
         end
       end)
  end.

End Orm.

Arguments ErrNotFound {driver_error}.
Arguments mkStmt {row driver_error}.
Arguments table {row driver_error} s.
Arguments where_ {row driver_error} s.
Arguments sort {row driver_error} s.
Arguments order {row driver_error} s.
Arguments group {row driver_error} s.
Arguments offset {row driver_error} s.
Arguments limit {row driver_error} s.
Arguments db {row driver_error} s.
Arguments NewStmt {row driver_error} d t.
Arguments set_where {row driver_error} s x.
Arguments set_sort {row driver_error} s x.
Arguments set_order {row driver_error} s x.
Arguments set_group {row driver_error} s x.
Arguments set_offset {row driver_error} s x.
Arguments set_limit {row driver_error} s x.
Arguments mkWorld {row driver_error}.
Arguments w_stmt {row driver_error} w.
Arguments w_trace {row driver_error} w.
Arguments ret {row driver_error A} a.
Arguments bind {row driver_error A B} m k.
Arguments lift {row driver_error A} r.
Arguments self {row driver_error}.
Arguments modify {row driver_error} f.
Arguments emit {row driver_error} e.
Arguments defer_Close {row driver_error A} body.
Arguments Where {row driver_error} Sprintf f args.
Arguments Sort {row driver_error} x.
Arguments Group {row driver_error} x.
Arguments Order {row driver_error} x.
Arguments Offset {row driver_error} x.
Arguments Limit {row driver_error} x.
Arguments SQLCondition {row driver_error} s bs.
Arguments SQLCount {row driver_error} s.
Arguments SQLQuery upper_table {row driver_error} s rt.
Arguments SQLQueryBuilder upper_table {row driver_error} result.
Arguments Returned {driver_error} r.
Arguments Exhausted {driver_error} rv.
Arguments rows_loop {row driver_error} Scan fs kind rv rows.
Arguments Query upper_table {row driver_error} Scan result.
Arguments SQLInsert upper_table {row driver_error} s rt rv.
Arguments SQLUpdate upper_table {row driver_error} s rt rv.
Arguments Update upper_table {row driver_error} data.
Arguments Insert upper_table {row driver_error} data.
Arguments errRowsClosed {driver_error}.
Arguments Count {row driver_error} Scan.

End orm.

(** ** Derived notions used in the statements *)

(** The buffer without its last two bytes. *)
Definition chop2 (b : string) : string := bytes.take (String.length b - 2) b.

Module text.
Section Text.

Variable upper_table : Z -> bool.
Variables row driver_error : Type.

(** The clauses of the descriptor that come before the limit. *)
Definition clauses (s : orm.Stmt row driver_error) : string :=
  ((if negb (orm.where_ s =? "")%string then " where " ++ orm.where_ s else "")
   ++ (if negb (orm.sort s =? "")%string
       then " order by " ++ orm.sort s
              ++ (if negb (orm.order s =? "")%string then " " ++ orm.order s else "")
       else "")
   ++ (if negb (orm.group s =? "")%string then " group by " ++ orm.group s else ""))%string.

(** The limit clause with the limit [n]. *)
Definition limit_clause (s : orm.Stmt row driver_error) (n : Z) : string :=
  (" limit " ++ (if orm.offset s >? 0 then fmt.d (orm.offset s) ++ "," else "")
     ++ fmt.d n)%string.

(** What [SQLCondition] appends for the descriptor. *)
Definition condition (s : orm.Stmt row driver_error) : string :=
  (clauses s ++ (if orm.limit s >? 0 then limit_clause s (orm.limit s) else ""))%string.

(** The SELECT statement of a record type with the fields [fs], up to the
    limit clause, and the whole of it. *)
Definition select_from (s : orm.Stmt row driver_error)
           (fs : list reflect.StructField) : string :=
  (chop2 (orm.select_fields upper_table (strings.SplitFirst (orm.table s) ",") fs "select ")
     ++ " from " ++ orm.table s ++ clauses s)%string.

Definition select (s : orm.Stmt row driver_error) (fs : list reflect.StructField)
  : string :=
  (select_from s fs
     ++ (if orm.limit s >? 0 then limit_clause s (orm.limit s) else ""))%string.

End Text.
End text.

Arguments text.clauses {row driver_error} s.
Arguments text.condition {row driver_error} s.
Arguments text.limit_clause {row driver_error} s n.
Arguments text.select_from upper_table {row driver_error} s fs.
Arguments text.select upper_table {row driver_error} s fs.

(** The flag [up] of the loop of [FieldEscape]: no character yet, or the last
    one was upper case. *)
Definition up_after (prev : option ascii) : bool :=
  match prev with
  | None => true
  | Some p => upper_letter p
  end.

(** What a field contributes to an INSERT or an UPDATE: nothing, a column with
    its literal default, or a column with a placeholder and the bound value. *)
Inductive entry : Type :=
| Literal (col txt : string)
| Bound (col : string) (arg : reflect.Value).

Definition entry_col (e : entry) : string :=
  match e with Literal c _ | Bound c _ => c end.

Definition entry_text (e : entry) : string :=
  match e with Literal _ t => t | Bound _ _ => "?" end.

Fixpoint bound_args (es : list entry) : list reflect.Value :=
  match es with
  | [] => []
  | Literal _ _ :: rest => bound_args rest
  | Bound _ v :: rest => v :: bound_args rest
  end.

Section Entries.

Variable upper_table : Z -> bool.

Definition default_of (f : reflect.StructField) : string :=
  reflect.Get (reflect.Tag f) "db_default".

Definition entry_of (f : reflect.StructField) (v : reflect.Value) : option entry :=
  if orm.unexported f then None
  else if (default_of f =? "auto")%string then None
  else if (default_of f =? "")%string then Some (Bound (orm.column upper_table f) v)
  else Some (Literal (orm.column upper_table f) (default_of f)).

Fixpoint entries (fs : list reflect.StructField) (vs : list reflect.Value)
  : list entry :=
  match fs, vs with
  | f :: fs', v :: vs' =>
    match entry_of f v with
    | Some e => e :: entries fs' vs'
    | None => entries fs' vs'
    end
  | _, _ => []
  end.

End Entries.

(** The fields whose value is bound are exported. *)
Definition bound_exported (fs : list reflect.StructField) : bool :=
  forallb (fun f => orm.unexported f
                    || (default_of f =? "auto")%string
                    || negb (default_of f =? "")%string
                    || (reflect.PkgPath f =? "")%string) fs.

(** The pieces of a list, each followed by [", "]. *)
Fixpoint listed (l : list string) : string :=
  match l with
  | [] => ""
  | x :: rest => x ++ ", " ++ listed rest
  end.

(** No letter A-Z in the string. *)
Fixpoint no_upper (k : string) : bool :=
  match k with
  | EmptyString => true
  | String a t => negb (upper_letter a) && no_upper t
  end.

(** A column as [SQLQuery] writes it: as it is when it holds a dot, else after
    the first table and a dot. *)
Definition qualified (firstTable name : string) : string :=
  if strings.ContainsByte name "." then name else (firstTable ++ "." ++ name)%string.

(** The columns of the fields that are not passed over, as [SQLQuery] writes
    them. *)
Definition selected (upper_table : Z -> bool) (firstTable : string)
           (fs : list reflect.StructField) : list string :=
  map (fun f => qualified firstTable (orm.column upper_table f))
      (filter (fun f => negb (orm.unexported f)) fs).

(** What the cursor sees for rows that are all scanned. *)
Definition scans {A} (rows : list A) : list sql.event :=
  flat_map (fun _ => [sql.RowsNext; sql.RowsScan]) rows.

Definition cursor_step (e : sql.event) : Prop := e = sql.RowsNext \/ e = sql.RowsScan.

(** ** Sample data: a table of users behind a handle that answers every query
    with the same rows *)
Module demo.

Definition no_table : Z -> bool := fun _ => false.

Definition row : Type := list reflect.Value.

(** A driver that wants as many destinations as the row has columns. *)
Definition scan_columns (r : row) (dests : list reflect.Type_)
  : string + list reflect.Value :=
  if (List.length r =? List.length dests)%nat then inr r
  else inl "sql: wrong number of destination arguments in Scan".

Definition answering (rows : list row) : sql.DB row string :=
  {| sql.Query := fun _ => inr rows;
     sql.Exec := fun _ _ =>
       inr {| sql.LastInsertId := (1, None); sql.RowsAffected := (1, None) |} |}.

Definition ID : reflect.StructField :=
  reflect.mkField "ID" "" false [("db_default", "auto")] reflect.TInt64.
Definition UserName : reflect.StructField :=
  reflect.mkField "UserName" "" false [] reflect.TString.
Definition CTime : reflect.StructField :=
  reflect.mkField "CTime" "" false [("db", "created"); ("db_default", "now()")]
                  reflect.TString.
Definition secret : reflect.StructField :=
  reflect.mkField "secret" "petrel/orm" false [] reflect.TString.
Definition base : reflect.StructField :=
  reflect.mkField "base" "petrel/orm" true [] (reflect.TStruct []).
Definition Cafe : reflect.StructField :=
  reflect.mkField ("Caf" ++ String (ascii_of_nat 195) (String (ascii_of_nat 169) ""))
                  "" false [] reflect.TString.

Definition User : reflect.Type_ := reflect.TStruct [ID; UserName; CTime].
Definition Hidden : reflect.Type_ := reflect.TStruct [secret].
Definition Derived : reflect.Type_ := reflect.TStruct [base; UserName].

Definition bob : reflect.Value :=
  reflect.VStruct [reflect.VInt 7; reflect.VString "bob"; reflect.VString ""].

Definition users (rows : list row) : orm.Stmt row string :=
  orm.NewStmt (answering rows) "t".

Definition start (rows : list row) : orm.World row string :=
  orm.mkWorld (users rows) [].

(** A handle that refuses everything, and a descriptor on a list of tables. *)
Definition refusing : sql.DB row string :=
  {| sql.Query := fun _ => inl "connection refused";
     sql.Exec := fun _ _ => inl "connection refused" |}.

Definition joined (rows : list row) : orm.Stmt row string :=
  orm.NewStmt (answering rows) "user,account".

Definition Account : reflect.StructField :=
  reflect.mkField "Balance" "" false [("db", "account.balance")] reflect.TInt64.

End demo.

(** ** Proof steps shared by the lemmas on the methods *)

Import orm.

Ltac run := unfold bind, lift, ret, self, modify, emit, defer_Close.

(** Case analysis on the innermost scrutinee first. *)
Ltac split_cases :=
  repeat (cbn [reflect.Kind_eqb reflect.Len]; match goal with
         | |- context [match ?x with _ => _ end] =>
           lazymatch x with
           | context [match _ with _ => _ end] => fail
           | _ => destruct x
           end
         end).

Ltac frame_done :=
  split_cases; cbn [w_stmt w_trace reflect.Kind_eqb reflect.Len]; do 2 eexists;
  rewrite <- ?app_assoc; reflexivity.

(** The head of [Query] up to the call of the storage handle; [compiled] is the
    lemma that gives the statement. *)
Ltac enter_Query compiled :=
  unfold Query; run;
  cbn [reflect.TypeOf reflect.ValueOf reflect.KindOf reflect.Kind_eqb negb
       reflect.Elem reflect.NumField reflect.Fields res_bind
       w_stmt w_trace List.length Z.of_nat Z.eqb];
  rewrite compiled; cbn [w_stmt w_trace db set_limit].

(** * Properties *)

(** ** Strings and buffers *)

Lemma append_assoc (a b c : string) : ((a ++ b) ++ c = a ++ (b ++ c))%string.
Proof. induction a as [|x a IH]; simpl; [reflexivity | now rewrite IH]. Qed.

Lemma append_nil_r (a : string) : (a ++ "")%string = a.
Proof. induction a as [|x a IH]; simpl; [reflexivity | now rewrite IH]. Qed.

Lemma length_append (a b : string) :
  String.length (a ++ b) = (String.length a + String.length b)%nat.
Proof. induction a as [|x a IH]; simpl; [reflexivity | now rewrite IH]. Qed.

(** ** Name resolver *)

Section NameResolverFacts.

Variable upper_table : Z -> bool.

(** On a string of ASCII bytes every byte is a rune. *)
Lemma runes_ascii (a : ascii) (k : string) :
  (nat_of_ascii a <? 128)%nat = true ->
  utf8.runes (String a k) = utf8.byte_val a :: utf8.runes k.
Proof.
  destruct a as [[] [] [] [] [] [] [] []]; intros H; try discriminate H;
    reflexivity.
Qed.

Lemma IsUpper_ascii (a : ascii) :
  (nat_of_ascii a <? 128)%nat = true ->
  unicode.IsUpper upper_table (utf8.byte_val a) = upper_letter a.
Proof.
  destruct a as [[] [] [] [] [] [] [] []]; intros H; try discriminate H;
    vm_compute; reflexivity.
Qed.

Lemma to_byte_lower (a : ascii) :
  upper_letter a = true -> to_byte (utf8.byte_val a + 32) = lower_of a.
Proof.
  destruct a as [[] [] [] [] [] [] [] []]; intros H; try discriminate H;
    vm_compute; reflexivity.
Qed.

Lemma to_byte_val (a : ascii) : to_byte (utf8.byte_val a) = a.
Proof. destruct a as [[] [] [] [] [] [] [] []]; vm_compute; reflexivity. Qed.

Lemma escape_loop_ascii (k : string) :
  forall (buf : string) (prev : option ascii) (up : bool),
    up = up_after prev ->
    ascii_only k = true ->
    fst (fold_left (escape_rune upper_table) (utf8.runes k) (buf, up))
    = (buf ++ snake_from prev k)%string.
Proof.
  induction k as [|a k IH]; intros buf prev up Hup H.
  - simpl. now rewrite append_nil_r.
  - simpl in H. apply andb_true_iff in H. destruct H as [Ha Hk].
    rewrite (runes_ascii _ _ Ha). cbn [fold_left snake_from].
    unfold escape_rune at 2. rewrite (IsUpper_ascii _ Ha).
    destruct (upper_letter a) eqn:Hua.
    + rewrite (to_byte_lower _ Hua).
      rewrite (IH _ (Some a) true (eq_sym Hua) Hk).
      subst up. destruct prev as [p|]; simpl.
      * destruct (upper_letter p); simpl; now rewrite !append_assoc.
      * now rewrite !append_assoc.
    + rewrite to_byte_val.
      rewrite (IH _ (Some a) false (eq_sym Hua) Hk). now rewrite !append_assoc.
Qed.

Lemma FieldEscape_ascii (k : string) :
  ascii_only k = true -> FieldEscape upper_table k = snake_case k.
Proof.
  intros H. unfold FieldEscape, snake_case.
  now rewrite (escape_loop_ascii k "" None true eq_refl H).
Qed.

End NameResolverFacts.

(** ** The compilers *)


Section OrmFacts.

Variable upper_table : Z -> bool.
Variables row driver_error : Type.
Variable Scan : row -> list reflect.Type_ -> driver_error + list reflect.Value.

Implicit Types (s : Stmt row driver_error) (bs : string)
         (fs : list reflect.StructField) (tr : list sql.event).

Lemma SQLCondition_append s bs :
  SQLCondition s bs = (bs ++ text.condition s)%string.
Proof.
  unfold text.condition, text.clauses, text.limit_clause, SQLCondition.
  destruct (negb (where_ s =? "")%string), (negb (sort s =? "")%string),
    (negb (order s =? "")%string), (negb (group s =? "")%string),
    (limit s >? 0), (offset s >? 0);
    repeat first [rewrite append_assoc | rewrite append_nil_r
                 | progress cbn [String.append]];
    reflexivity.
Qed.

Lemma select_fields_length ft fs :
  forall bs, (String.length bs <= String.length (select_fields upper_table ft fs bs))%nat.
Proof.
  induction fs as [|f fs IH]; intros bs; cbn [select_fields]; [lia|].
  destruct (unexported f); [apply IH|].
  eapply Nat.le_trans; [|apply IH].
  destruct (negb _); rewrite ?length_append; lia.
Qed.

Lemma Truncate_chop2 (b : string) :
  (2 <= String.length b)%nat ->
  bytes.Truncate b (bytes.Len b - 2) = Ret (chop2 b).
Proof.
  intros H. unfold bytes.Truncate, bytes.Len, chop2.
  replace ((Z.of_nat (String.length b) - 2 <? 0)
           || (Z.of_nat (String.length b) <? Z.of_nat (String.length b) - 2)) with false.
  - f_equal. f_equal. lia.
  - symmetry. apply orb_false_iff. split; apply Z.ltb_ge; lia.
Qed.

Lemma SQLQuery_struct s fs :
  SQLQuery upper_table s (reflect.TStruct fs) = Ret (text.select upper_table s fs).
Proof.
  unfold SQLQuery, text.select, text.select_from. cbn [reflect.Fields res_bind].
  rewrite Truncate_chop2.
  - cbn [res_bind]. rewrite SQLCondition_append. unfold text.condition.
    now rewrite !append_assoc.
  - eapply Nat.le_trans; [|apply select_fields_length]. simpl. lia.
Qed.

(** With the limit 1 the statement is the statement up to the limit clause
    followed by [ limit 1], or by [ limit <offset>,1]. *)
Lemma select_limit_1 s fs :
  text.select upper_table (set_limit s 1) fs
  = (text.select_from upper_table s fs ++ " limit "
       ++ (if offset s >? 0 then fmt.d (offset s) ++ "," else "") ++ "1")%string.
Proof. reflexivity. Qed.

End OrmFacts.

(** ** The executor *)

Section ExecutorFacts.

Variable upper_table : Z -> bool.
Variables row driver_error : Type.
Variable Scan : row -> list reflect.Type_ -> driver_error + list reflect.Value.

Implicit Types (s : Stmt row driver_error) (fs : list reflect.StructField)
         (tr : list sql.event) (w : World row driver_error).

(** The loop over the cursor leaves the descriptor alone and only adds to the
    trace. *)
Lemma rows_loop_frame fs kind (rows : list row) :
  forall rv w, exists evs,
    fst (rows_loop Scan fs kind rv rows w) = mkWorld (w_stmt w) (w_trace w ++ evs).
Proof.
  induction rows as [|r rest IH]; intros rv w; cbn [rows_loop]; run.
  - eexists. cbn. reflexivity.
  - cbn [w_stmt w_trace]. destruct (row_refs fs) as [refs|msg].
    + cbn [w_stmt w_trace]. destruct (Scan r refs) as [e|vals].
      * eexists. cbn. rewrite <- app_assoc. reflexivity.
      * destruct (reflect.Kind_eqb kind reflect.Struct).
        -- eexists. cbn. rewrite <- app_assoc. reflexivity.
        -- destruct (reflect.Append rv _) as [rv'|msg].
           ++ destruct (IH rv' (mkWorld (w_stmt w)
                                  ((w_trace w ++ [sql.RowsNext]) ++ [sql.RowsScan])))
                as [evs Hevs].
              exists (([sql.RowsNext; sql.RowsScan] ++ evs)%list).
              rewrite Hevs. cbn [w_stmt w_trace]. now rewrite <- !app_assoc.
           ++ eexists. cbn. rewrite <- app_assoc. reflexivity.
    + eexists. cbn. reflexivity.
Qed.

Lemma Query_single_frame f fs v s tr :
  exists evs r,
    Query upper_table Scan
      (reflect.Iface (reflect.TPtr (reflect.TStruct (f :: fs))) v) (mkWorld s tr)
    = (mkWorld (set_limit s 1)
         (tr ++ sql.DBQuery (text.select upper_table (set_limit s 1) (f :: fs)) :: evs),
       r).
Proof.
  enter_Query SQLQuery_struct.
  destruct (sql.Query (db s) _) as [e|rows].
  - do 2 eexists. reflexivity.
  - match goal with |- context [rows_loop Scan ?a ?b ?c ?d ?w0] =>
      destruct (rows_loop_frame a b d c w0) as [evs Hevs];
      destruct (rows_loop Scan a b c d w0) as [w1 [out|msg]]
    end; cbn [fst w_stmt w_trace] in Hevs; subst w1; cbn [w_stmt w_trace];
      frame_done.
Qed.

Lemma Query_collection_frame f fs v s tr :
  exists evs r,
    Query upper_table Scan
      (reflect.Iface (reflect.TPtr (reflect.TSlice (reflect.TStruct (f :: fs)))) v)
      (mkWorld s tr)
    = (mkWorld s (tr ++ sql.DBQuery (text.select upper_table s (f :: fs)) :: evs), r).
Proof.
  enter_Query SQLQuery_struct.
  destruct (sql.Query (db s) _) as [e|rows].
  - do 2 eexists. reflexivity.
  - match goal with |- context [rows_loop Scan ?a ?b ?c ?d ?w0] =>
      destruct (rows_loop_frame a b d c w0) as [evs Hevs];
      destruct (rows_loop Scan a b c d w0) as [w1 [out|msg]]
    end; cbn [fst w_stmt w_trace] in Hevs; subst w1; cbn [w_stmt w_trace];
      frame_done.
Qed.

(** Whatever the record type, a query into a pointer to a record leaves the
    descriptor with the limit 1. *)
Lemma Query_single_stmt fs v s tr :
  w_stmt (fst (Query upper_table Scan
                 (reflect.Iface (reflect.TPtr (reflect.TStruct fs)) v) (mkWorld s tr)))
  = set_limit s 1.
Proof.
  destruct fs as [|f fs].
  - reflexivity.
  - destruct (Query_single_frame f fs v s tr) as (evs & r & H). now rewrite H.
Qed.

(** X26.  A record type without any field is turned down before a statement
    is compiled: nothing reaches the storage handle.  A query into a pointer
    to such a record has set the limit to 1 all the same. *)
Lemma no_field_rejected (v : reflect.Value) (s : Stmt row driver_error)
      (tr : list sql.event) :
  Query upper_table Scan (reflect.Iface (reflect.TPtr (reflect.TStruct [])) v)
        (mkWorld s tr)
  = (mkWorld (set_limit s 1) tr, Ret (inr (Errorf "result not found field"))) /\
  Insert upper_table (reflect.Iface (reflect.TStruct []) v) (mkWorld s tr)
  = (mkWorld s tr, Ret (0, Some (Errorf "data not found field"))) /\
  Update upper_table (reflect.Iface (reflect.TStruct []) v) (mkWorld s tr)
  = (mkWorld s tr, Ret (0, Some (Errorf "data not found field"))).
Proof. repeat split. Qed.

(** X24.  A collection that already holds records is left as it is by an
    empty result set, and [Query] returns [nil], not [ErrNotFound]. *)
Lemma Query_empty_result_kept f fs (x : reflect.Value) (l : list reflect.Value) s tr :
  sql.Query (db s) (text.select upper_table s (f :: fs)) = inr [] ->
  Query upper_table Scan
    (reflect.Iface (reflect.TPtr (reflect.TSlice (reflect.TStruct (f :: fs))))
       (reflect.VPtr (reflect.VSlice (x :: l))))
    (mkWorld s tr)
  = (mkWorld s
       (tr ++ [sql.DBQuery (text.select upper_table s (f :: fs));
               sql.RowsNext; sql.RowsClose]),
     Ret (inl (reflect.VSlice (x :: l)))).
Proof.
  intros H. enter_Query SQLQuery_struct. rewrite H. cbn. now rewrite <- !app_assoc.
Qed.

(** X25.  A collection whose elements are no records makes [NumField] panic
    before a statement is compiled: the descriptor and the trace are as
    before. *)
Lemma Query_collection_of_non_records (t : reflect.Type_) (v : reflect.Value) w :
  reflect.KindOf t <> reflect.Struct ->
  Query upper_table Scan (reflect.Iface (reflect.TPtr (reflect.TSlice t)) v) w
  = (w, Panic "reflect: NumField of non-struct type").
Proof.
  intros H. unfold Query. run. destruct t; try reflexivity. now elim H.
Qed.

End ExecutorFacts.

(** ** The mutation compilers *)

Section MutationFacts.

Variable upper_table : Z -> bool.
Variables row driver_error : Type.

Implicit Types (s : Stmt row driver_error) (fs : list reflect.StructField)
         (vs : list reflect.Value).

Lemma take_append (a b : string) : bytes.take (String.length a) (a ++ b) = a.
Proof. induction a as [|x a IH]; cbn; [now destruct b | now rewrite IH]. Qed.

Lemma chop2_comma (a : string) : chop2 (a ++ ", ") = a.
Proof.
  unfold chop2. rewrite length_append. cbn [String.length].
  replace (String.length a + 2 - 2)%nat with (String.length a) by lia.
  apply take_append.
Qed.

Lemma listed_concat (x : string) (l : list string) :
  listed (x :: l) = (String.concat ", " (x :: l) ++ ", ")%string.
Proof.
  revert x. induction l as [|y l IH]; intros x.
  - reflexivity.
  - cbn [listed String.concat] in *. rewrite IH. now rewrite !append_assoc.
Qed.

Lemma chop2_listed (p x : string) (l : list string) :
  chop2 (p ++ listed (x :: l)) = (p ++ String.concat ", " (x :: l))%string.
Proof. now rewrite listed_concat, <- append_assoc, chop2_comma. Qed.

Lemma nth_error_middle (pre : list reflect.Value) v vs :
  nth_error (pre ++ v :: vs) (List.length pre) = Some v.
Proof. induction pre as [|x pre IH]; cbn; [reflexivity | exact IH]. Qed.

(** The loop of [SQLInsert] on a record whose bound fields are exported: every
    entry adds its column to [bs] and its literal or its placeholder to [dbs],
    and a placeholder adds its value to [refs], in the order of the fields. *)
Lemma insert_fields_entries fs :
  forall vs (pre : list reflect.Value) (bs dbs : string) (refs : list reflect.Value),
    List.length vs = List.length fs ->
    bound_exported fs = true ->
    insert_fields upper_table (Some (reflect.VStruct (pre ++ vs))) (List.length pre)
                  fs bs dbs refs
    = Ret ((bs ++ listed (map entry_col (entries upper_table fs vs)))%string,
           (dbs ++ listed (map entry_text (entries upper_table fs vs)))%string,
           (refs ++ bound_args (entries upper_table fs vs))%list).
Proof.
  induction fs as [|f fs IH]; intros vs pre bs dbs refs Hlen Hexp.
  - cbn [insert_fields update_fields entries map listed bound_args].
    now rewrite !append_nil_r, app_nil_r.
  - destruct vs as [|v vs]; [discriminate Hlen|].
    cbn [bound_exported forallb] in Hexp. apply andb_true_iff in Hexp.
    destruct Hexp as [Hf Hexp]. fold (bound_exported fs) in Hexp.
    injection Hlen as Hlen.
    assert (Hstep : forall bs dbs refs,
               insert_fields upper_table (Some (reflect.VStruct (pre ++ v :: vs)))
                             (S (List.length pre)) fs bs dbs refs
               = Ret ((bs ++ listed (map entry_col (entries upper_table fs vs)))%string,
                      (dbs ++ listed (map entry_text (entries upper_table fs vs)))%string,
                      (refs ++ bound_args (entries upper_table fs vs))%list)).
    { intros. specialize (IH vs (pre ++ [v])%list bs0 dbs0 refs0 Hlen Hexp).
      rewrite <- app_assoc in IH. rewrite length_app in IH. cbn in IH.
      rewrite Nat.add_1_r in IH. exact IH. }
    cbn [insert_fields entries]. unfold entry_of, default_of in *.
    destruct (unexported f); [apply Hstep|].
    destruct (reflect.Get (reflect.Tag f) "db_default" =? "auto")%string;
      [apply Hstep|].
    destruct (reflect.Get (reflect.Tag f) "db_default" =? "")%string.
    + cbn [negb orb] in Hf |- *.
      unfold reflect.Field. rewrite nth_error_middle.
      unfold reflect.Interface. rewrite Hf. cbn [res_bind].
      rewrite Hstep. cbn [map entry_col entry_text bound_args listed].
      now rewrite !append_assoc, <- app_assoc.
    + cbn [negb]. rewrite Hstep. cbn [map entry_col entry_text bound_args listed].
      now rewrite !append_assoc.
Qed.

Lemma update_fields_entries fs :
  forall vs (pre : list reflect.Value) (bs : string) (refs : list reflect.Value),
    List.length vs = List.length fs ->
    bound_exported fs = true ->
    update_fields upper_table (Some (reflect.VStruct (pre ++ vs))) (List.length pre)
                  fs bs refs
    = Ret ((bs ++ listed (map (fun e => "`" ++ entry_col e ++ "`=" ++ entry_text e)
                              (entries upper_table fs vs)))%string,
           (refs ++ bound_args (entries upper_table fs vs))%list).
Proof.
  induction fs as [|f fs IH]; intros vs pre bs refs Hlen Hexp.
  - cbn [insert_fields update_fields entries map listed bound_args].
    now rewrite !append_nil_r, app_nil_r.
  - destruct vs as [|v vs]; [discriminate Hlen|].
    cbn [bound_exported forallb] in Hexp. apply andb_true_iff in Hexp.
    destruct Hexp as [Hf Hexp]. fold (bound_exported fs) in Hexp.
    injection Hlen as Hlen.
    assert (Hstep : forall bs refs,
               update_fields upper_table (Some (reflect.VStruct (pre ++ v :: vs)))
                             (S (List.length pre)) fs bs refs
               = Ret ((bs ++ listed (map (fun e => "`" ++ entry_col e ++ "`=" ++ entry_text e)
                                         (entries upper_table fs vs)))%string,
                      (refs ++ bound_args (entries upper_table fs vs))%list)).
    { intros. specialize (IH vs (pre ++ [v])%list bs0 refs0 Hlen Hexp).
      rewrite <- app_assoc in IH. rewrite length_app in IH. cbn in IH.
      rewrite Nat.add_1_r in IH. exact IH. }
    cbn [update_fields entries]. unfold entry_of, default_of in *.
    destruct (unexported f); [apply Hstep|].
    destruct (reflect.Get (reflect.Tag f) "db_default" =? "auto")%string;
      [apply Hstep|].
    destruct (reflect.Get (reflect.Tag f) "db_default" =? "")%string.
    + cbn [negb orb] in Hf |- *.
      unfold reflect.Field. rewrite nth_error_middle.
      unfold reflect.Interface. rewrite Hf. cbn [res_bind].
      rewrite Hstep. cbn [map entry_col entry_text bound_args listed].
      now rewrite !append_assoc, <- app_assoc.
    + cbn [negb]. rewrite Hstep. cbn [map entry_col entry_text bound_args listed].
      now rewrite !append_assoc.
Qed.

(** When a field whose value is bound is not exported, the loops panic in
    [Interface]. *)
Lemma insert_fields_refused fs :
  forall vs (pre : list reflect.Value) (bs dbs : string) (refs : list reflect.Value),
    List.length vs = List.length fs ->
    bound_exported fs = false ->
    insert_fields upper_table (Some (reflect.VStruct (pre ++ vs))) (List.length pre)
                  fs bs dbs refs
    = Panic "reflect.Value.Interface: cannot return value obtained from unexported field or method".
Proof.
  induction fs as [|f fs IH]; intros vs pre bs dbs refs Hlen Hexp;
    [discriminate Hexp|].
  destruct vs as [|v vs]; [discriminate Hlen|]. injection Hlen as Hlen.
  cbn [bound_exported forallb] in Hexp. fold (bound_exported fs) in Hexp.
  assert (Hstep : bound_exported fs = false -> forall bs dbs refs,
             insert_fields upper_table (Some (reflect.VStruct (pre ++ v :: vs)))
                           (S (List.length pre)) fs bs dbs refs
             = Panic "reflect.Value.Interface: cannot return value obtained from unexported field or method").
  { intros Hfs bs0 dbs0 refs0.
    specialize (IH vs (pre ++ [v])%list bs0 dbs0 refs0 Hlen Hfs).
    rewrite <- app_assoc in IH. rewrite length_app in IH. cbn in IH.
    rewrite Nat.add_1_r in IH. exact IH. }
  cbn [insert_fields]. unfold default_of in *.
  destruct (unexported f); [now apply Hstep|].
  destruct (reflect.Get (reflect.Tag f) "db_default" =? "auto")%string;
    [now apply Hstep|].
  destruct (reflect.Get (reflect.Tag f) "db_default" =? "")%string;
    cbn [negb orb andb] in Hexp |- *; [|now apply Hstep].
  unfold reflect.Field. rewrite nth_error_middle. unfold reflect.Interface.
  destruct (reflect.PkgPath f =? "")%string; cbn [res_bind andb] in *;
    [now apply Hstep | reflexivity].
Qed.

Lemma update_fields_refused fs :
  forall vs (pre : list reflect.Value) (bs : string) (refs : list reflect.Value),
    List.length vs = List.length fs ->
    bound_exported fs = false ->
    update_fields upper_table (Some (reflect.VStruct (pre ++ vs))) (List.length pre)
                  fs bs refs
    = Panic "reflect.Value.Interface: cannot return value obtained from unexported field or method".
Proof.
  induction fs as [|f fs IH]; intros vs pre bs refs Hlen Hexp;
    [discriminate Hexp|].
  destruct vs as [|v vs]; [discriminate Hlen|]. injection Hlen as Hlen.
  cbn [bound_exported forallb] in Hexp. fold (bound_exported fs) in Hexp.
  assert (Hstep : bound_exported fs = false -> forall bs refs,
             update_fields upper_table (Some (reflect.VStruct (pre ++ v :: vs)))
                           (S (List.length pre)) fs bs refs
             = Panic "reflect.Value.Interface: cannot return value obtained from unexported field or method").
  { intros Hfs bs0 refs0.
    specialize (IH vs (pre ++ [v])%list bs0 refs0 Hlen Hfs).
    rewrite <- app_assoc in IH. rewrite length_app in IH. cbn in IH.
    rewrite Nat.add_1_r in IH. exact IH. }
  cbn [update_fields]. unfold default_of in *.
  destruct (unexported f); [now apply Hstep|].
  destruct (reflect.Get (reflect.Tag f) "db_default" =? "auto")%string;
    [now apply Hstep|].
  destruct (reflect.Get (reflect.Tag f) "db_default" =? "")%string;
    cbn [negb orb andb] in Hexp |- *; [|now apply Hstep].
  unfold reflect.Field. rewrite nth_error_middle. unfold reflect.Interface.
  destruct (reflect.PkgPath f =? "")%string; cbn [res_bind andb] in *;
    [now apply Hstep | reflexivity].
Qed.

(** [SQLInsert] and [SQLUpdate] on a record with at least one entry whose bound
    fields are exported: the columns and the values are the entries in the
    order of the fields, a placeholder for each bound argument and the
    literal for each default; a field with the default [auto] has no entry. *)
Lemma SQLInsert_entries s fs vs (e : entry) (es : list entry) :
  List.length vs = List.length fs ->
  bound_exported fs = true ->
  entries upper_table fs vs = e :: es ->
  SQLInsert upper_table s (reflect.TStruct fs) (Some (reflect.VStruct vs))
  = Ret (("insert into " ++ table s ++ " ("
            ++ String.concat ", " (map entry_col (e :: es))
            ++ ") values ("
            ++ String.concat ", " (map entry_text (e :: es)) ++ ") ")%string,
         bound_args (e :: es)).
Proof.
  intros Hlen Hexp Hes. unfold SQLInsert. cbn [reflect.Fields res_bind].
  rewrite (insert_fields_entries fs vs [] _ _ _ Hlen Hexp), Hes.
  cbn [res_bind map app].
  rewrite !Truncate_chop2.
  - cbn [res_bind]. rewrite !chop2_listed. now rewrite !append_assoc.
  - rewrite length_append. cbn. lia.
  - rewrite !length_append. cbn. lia.
Qed.

Lemma SQLUpdate_entries s fs vs (e : entry) (es : list entry) :
  List.length vs = List.length fs ->
  bound_exported fs = true ->
  entries upper_table fs vs = e :: es ->
  SQLUpdate upper_table s (reflect.TStruct fs) (Some (reflect.VStruct vs))
  = Ret (("update `" ++ table s ++ "` set "
            ++ String.concat ", "
                 (map (fun e => "`" ++ entry_col e ++ "`=" ++ entry_text e) (e :: es))
            ++ text.condition s)%string,
         bound_args (e :: es)).
Proof.
  intros Hlen Hexp Hes. unfold SQLUpdate. cbn [reflect.Fields res_bind].
  rewrite (update_fields_entries fs vs [] _ _ Hlen Hexp), Hes.
  cbn [res_bind map app].
  rewrite Truncate_chop2.
  - cbn [res_bind]. rewrite SQLCondition_append, chop2_listed.
    cbn [String.append]. now rewrite !append_assoc.
  - rewrite !length_append. cbn. lia.
Qed.

(** As many placeholders as bound arguments. *)
Lemma placeholders_bound_args (es : list entry) :
  List.length (bound_args es)
  = List.length (filter (fun e => match e with Bound _ _ => true | _ => false end) es).
Proof.
  induction es as [|[c t|c v] es IH]; cbn; [reflexivity | exact IH | now rewrite IH].
Qed.

End MutationFacts.

(** ** The claims of the specification *)

Section Claims.

Variable upper_table : Z -> bool.
Variables row driver_error : Type.
Variable Scan : row -> list reflect.Type_ -> driver_error + list reflect.Value.

Implicit Types (s : Stmt row driver_error) (fs : list reflect.StructField)
         (tr : list sql.event) (w : World row driver_error).

(** C1, as the code has it.  A field named [HTTPStatus] without a [db] tag gets
    the column [httpstatus]: the capitals H, T, T, P and S follow one another,
    so none of them is preceded by an underscore, and nothing separates the
    run from the rest of the word. *)
Theorem column_HTTPStatus (f : reflect.StructField) :
  reflect.Name f = "HTTPStatus" ->
  reflect.Get (reflect.Tag f) "db" = "" ->
  column upper_table f = "httpstatus".
Proof.
  intros Hn Ht. unfold column. rewrite Ht, Hn. reflexivity.
Qed.

(** C7, for identifiers of ASCII characters.  A [db] tag that is not empty is
    the column, whatever the identifier; without one, an identifier of ASCII
    characters is converted as the specification says: every upper case
    letter is lowered and preceded by an underscore unless it is the first
    character or follows an upper case letter.  [UserID] gives [user_id] and
    [id] gives [id]. *)
Theorem column_resolution (f : reflect.StructField) :
  (reflect.Get (reflect.Tag f) "db" <> "" ->
   column upper_table f = reflect.Get (reflect.Tag f) "db") /\
  (reflect.Get (reflect.Tag f) "db" = "" ->
   ascii_only (reflect.Name f) = true ->
   column upper_table f = snake_case (reflect.Name f)) /\
  FieldEscape upper_table "UserID" = "user_id" /\
  FieldEscape upper_table "id" = "id".
Proof.
  repeat split.
  - intros H. unfold column.
    destruct (String.eqb_spec (reflect.Get (reflect.Tag f) "db") ""); congruence.
  - intros H Ha. unfold column. rewrite H. cbn [String.eqb].
    now apply FieldEscape_ascii.
Qed.

(** C6.  With the predicate [id = 1], the sort [id], the order [desc], no
    group, the limit 5 and the offset 10, [SQLCondition] appends exactly
    [ where id = 1 order by id desc limit 10,5] to the buffer. *)
Theorem SQLCondition_example (t : string) (d : sql.DB row driver_error) (bs : string) :
  SQLCondition (mkStmt t "id = 1" "id" "desc" "" 10 5 d) bs
  = (bs ++ " where id = 1 order by id desc limit 10,5")%string.
Proof.
  unfold SQLCondition. cbn [where_ sort order group limit offset].
  cbn [String.eqb Ascii.eqb Bool.eqb negb Z.gtb Z.compare Pos.compare Pos.compare_cont].
  change (fmt.d 10) with "10"%string. change (fmt.d 5) with "5"%string.
  rewrite !append_assoc. reflexivity.
Qed.

(** C4.  For a pointer to a record, whatever limit the descriptor had, the
    statement compiled by [SQLQueryBuilder], which is also the one [Query]
    sends to the storage handle, is the statement without a limit clause
    followed by [ limit 1], or by [ limit <offset>,1] when the offset is
    positive. *)
Theorem single_record_limit_1 (f : reflect.StructField) fs (v : reflect.Value) s tr :
  let target := reflect.Iface (reflect.TPtr (reflect.TStruct (f :: fs))) v in
  let statement :=
      (text.select_from upper_table s (f :: fs) ++ " limit "
         ++ (if offset s >? 0 then fmt.d (offset s) ++ "," else "") ++ "1")%string in
  SQLQueryBuilder upper_table target (mkWorld s tr)
  = (mkWorld (set_limit s 1) tr, Ret (statement, None)) /\
  exists evs r,
    Query upper_table Scan target (mkWorld s tr)
    = (mkWorld (set_limit s 1) (tr ++ sql.DBQuery statement :: evs), r).
Proof.
  intros target statement.
  assert (E : text.select upper_table (set_limit s 1) (f :: fs) = statement)
    by apply select_limit_1.
  split.
  - unfold target, SQLQueryBuilder. run.
    cbn [reflect.TypeOf reflect.ValueOf reflect.KindOf reflect.Kind_eqb negb
         reflect.Elem reflect.NumField reflect.Fields res_bind
         w_stmt w_trace List.length Z.of_nat Z.eqb].
    rewrite SQLQuery_struct, E. reflexivity.
  - rewrite <- E. apply Query_single_frame.
Qed.

(** C10.  A query into a pointer to a record leaves the descriptor with the
    limit 1 and its other fields as they were, whatever the outcome; a later
    compilation or query with that descriptor, also for a collection, has the
    limit clause with 1. *)
Theorem Query_single_limit_persists fs (v : reflect.Value) s tr :
  let w' := fst (Query upper_table Scan
                   (reflect.Iface (reflect.TPtr (reflect.TStruct fs)) v)
                   (mkWorld s tr)) in
  w_stmt w' = set_limit s 1 /\
  forall (f' : reflect.StructField) fs' (v' : reflect.Value),
    let collection :=
        reflect.Iface (reflect.TPtr (reflect.TSlice (reflect.TStruct (f' :: fs')))) v' in
    let statement :=
        (text.select_from upper_table s (f' :: fs') ++ " limit "
           ++ (if offset s >? 0 then fmt.d (offset s) ++ "," else "") ++ "1")%string in
    SQLQueryBuilder upper_table collection w' = (w', Ret (statement, None)) /\
    exists evs r,
      Query upper_table Scan collection w'
      = (mkWorld (set_limit s 1) (w_trace w' ++ sql.DBQuery statement :: evs), r).
Proof.
  intros w'. pose proof (Query_single_stmt upper_table _ _ Scan fs v s tr) as H.
  fold w' in H. split; [exact H|].
  intros f' fs' v' collection statement.
  assert (E : text.select upper_table (set_limit s 1) (f' :: fs') = statement)
    by apply select_limit_1.
  destruct w' as [s' tr']. cbn [w_stmt w_trace] in *. subst s'. split.
  - unfold collection, SQLQueryBuilder. run.
    cbn [reflect.TypeOf reflect.ValueOf reflect.KindOf reflect.Kind_eqb negb
         reflect.Elem reflect.NumField reflect.Fields res_bind
         w_stmt w_trace List.length Z.of_nat Z.eqb].
    rewrite SQLQuery_struct, E. reflexivity.
  - rewrite <- E. apply Query_collection_frame.
Qed.

(** C3, for a collection that holds nothing when [Query] is called.  When the
    storage handle answers the compiled statement with an empty result set,
    [Query] returns the traced [ErrNotFound], for a pointer to a record as for
    a pointer to a collection that holds nothing; the cursor is asked once and
    released.  [ErrNotFound] is not an error of the driver. *)
Theorem Query_empty_result_NotFound (f : reflect.StructField) fs (v : reflect.Value) s tr :
  (sql.Query (db s) (text.select upper_table (set_limit s 1) (f :: fs)) = inr [] ->
   Query upper_table Scan
     (reflect.Iface (reflect.TPtr (reflect.TStruct (f :: fs))) (reflect.VPtr v))
     (mkWorld s tr)
   = (mkWorld (set_limit s 1)
        (tr ++ [sql.DBQuery (text.select upper_table (set_limit s 1) (f :: fs));
                sql.RowsNext; sql.RowsClose]),
      Ret (inr (Trace ErrNotFound)))) /\
  (sql.Query (db s) (text.select upper_table s (f :: fs)) = inr [] ->
   Query upper_table Scan
     (reflect.Iface (reflect.TPtr (reflect.TSlice (reflect.TStruct (f :: fs))))
        (reflect.VPtr (reflect.VSlice [])))
     (mkWorld s tr)
   = (mkWorld s
        (tr ++ [sql.DBQuery (text.select upper_table s (f :: fs));
                sql.RowsNext; sql.RowsClose]),
      Ret (inr (Trace ErrNotFound)))) /\
  Cause (Trace (@ErrNotFound driver_error)) = ErrNotFound /\
  (forall e : driver_error, Cause (Trace (Driver e)) <> ErrNotFound).
Proof.
  repeat split.
  - intros H. enter_Query SQLQuery_struct. rewrite H. cbn. now rewrite <- !app_assoc.
  - intros H. enter_Query SQLQuery_struct. rewrite H. cbn. now rewrite <- !app_assoc.
  - intros e. cbn. discriminate.
Qed.

(** C9.  When the target is a pointer to a record, the result set has a first
    row and that row is scanned, [Query] stores the scanned record in the
    target and returns [nil]; the cursor was asked once, one row was scanned
    and the cursor was released, whatever rows follow. *)
Theorem Query_single_first_row (f : reflect.StructField) fs (v : reflect.Value) s tr
        (r : row) (rest : list row) (refs : list reflect.Type_)
        (vals : list reflect.Value) :
  sql.Query (db s) (text.select upper_table (set_limit s 1) (f :: fs)) = inr (r :: rest) ->
  row_refs (f :: fs) = Ret refs ->
  Scan r refs = inr vals ->
  Query upper_table Scan
    (reflect.Iface (reflect.TPtr (reflect.TStruct (f :: fs))) (reflect.VPtr v))
    (mkWorld s tr)
  = (mkWorld (set_limit s 1)
       (tr ++ [sql.DBQuery (text.select upper_table (set_limit s 1) (f :: fs));
               sql.RowsNext; sql.RowsScan; sql.RowsClose]),
     Ret (inl (reflect.VStruct (scanned (f :: fs) vals)))).
Proof.
  intros Hq Hrefs Hscan. enter_Query SQLQuery_struct. rewrite Hq.
  cbn [reflect.ValueElem rows_loop]. run. rewrite Hrefs.
  cbn [w_stmt w_trace]. rewrite Hscan.
  cbn [reflect.Kind_eqb w_stmt w_trace]. now rewrite <- !app_assoc.
Qed.

(** C8, for the targets that are not pointers.  [Query] returns the error
    [result type must be ptr] at once: the descriptor and the trace of the
    storage handle are as before, and [SQLQueryBuilder] returns the empty
    statement with the same error. *)
Theorem Query_non_pointer_rejected (result : reflect.iface) w :
  reflect.KindOf (reflect.TypeOf result) <> reflect.Ptr ->
  let e : error driver_error :=
      Errorf ("result type must be ptr, recv:"
                ++ reflect.Kind_String (reflect.KindOf (reflect.TypeOf result))) in
  Query upper_table Scan result w = (w, Ret (inr e)) /\
  SQLQueryBuilder upper_table result w = (w, Ret (""%string, Some e)).
Proof.
  intros H e. unfold Query, SQLQueryBuilder.
  destruct (reflect.KindOf (reflect.TypeOf result)) eqn:K; try congruence;
    split; reflexivity.
Qed.

End Claims.

(** ** The claims at the sample data *)

Lemma column_HTTPStatus_witness :
  column demo.no_table (reflect.mkField "HTTPStatus" "" false [] reflect.TInt)
  = "httpstatus"%string.
Proof. apply column_HTTPStatus; reflexivity. Defined.

(** C1 as it is written: the column of [HTTPStatus] is not [http_status]. *)
Lemma column_HTTPStatus_not_http_status :
  column demo.no_table (reflect.mkField "HTTPStatus" "" false [] reflect.TInt)
  <> "http_status"%string.
Proof. vm_compute. discriminate. Qed.

Lemma column_resolution_witness :
  column demo.no_table demo.CTime = "created"%string /\
  column demo.no_table demo.UserName = "user_name"%string.
Proof.
  split.
  - apply (proj1 (column_resolution demo.no_table demo.CTime)). discriminate.
  - apply (proj1 (proj2 (column_resolution demo.no_table demo.UserName)));
      reflexivity.
Defined.

(** C7 as it is written fails on an identifier that is not ASCII.  The field
    [Café] has no [db] tag; its [é] is no upper case letter and is two bytes
    long, and the loop appends the low byte of its rune, 233, instead. *)
Lemma column_Cafe_not_converted :
  reflect.Get (reflect.Tag demo.Cafe) "db" = ""%string /\
  column demo.no_table demo.Cafe = ("caf" ++ String (ascii_of_nat 233) "")%string /\
  snake_case (reflect.Name demo.Cafe)
  = ("caf" ++ String (ascii_of_nat 195) (String (ascii_of_nat 169) ""))%string /\
  column demo.no_table demo.Cafe <> snake_case (reflect.Name demo.Cafe).
Proof. repeat split. vm_compute. discriminate. Qed.

Lemma Query_empty_result_NotFound_witness :
  Query demo.no_table demo.scan_columns
        (reflect.Iface (reflect.TPtr demo.User) (reflect.VPtr (reflect.Zero demo.User)))
        (demo.start [])
  = (mkWorld (set_limit (demo.users []) 1)
       [sql.DBQuery "select t.id, t.user_name, t.created from t limit 1";
        sql.RowsNext; sql.RowsClose],
     Ret (inr (Trace ErrNotFound))) /\
  Query demo.no_table demo.scan_columns
        (reflect.Iface (reflect.TPtr (reflect.TSlice demo.User))
                       (reflect.VPtr (reflect.VSlice [])))
        (demo.start [])
  = (mkWorld (demo.users [])
       [sql.DBQuery "select t.id, t.user_name, t.created from t";
        sql.RowsNext; sql.RowsClose],
     Ret (inr (Trace ErrNotFound))).
Proof.
  split.
  - apply (proj1 (Query_empty_result_NotFound demo.no_table _ _ demo.scan_columns
                    demo.ID [demo.UserName; demo.CTime] (reflect.Zero demo.User)
                    (demo.users []) [])).
    reflexivity.
  - apply (proj1 (proj2 (Query_empty_result_NotFound demo.no_table _ _ demo.scan_columns
                    demo.ID [demo.UserName; demo.CTime] (reflect.Zero demo.User)
                    (demo.users []) []))).
    reflexivity.
Defined.

(** C3 as it is written fails on a collection that already holds a record:
    the result set is empty, the collection keeps its record, its length is
    not 0, and [Query] returns [nil], not [ErrNotFound]. *)
Lemma Query_empty_result_returns_nil :
  Query demo.no_table demo.scan_columns
        (reflect.Iface (reflect.TPtr (reflect.TSlice demo.User))
                       (reflect.VPtr (reflect.VSlice [demo.bob])))
        (demo.start [])
  = (mkWorld (demo.users [])
       [sql.DBQuery "select t.id, t.user_name, t.created from t";
        sql.RowsNext; sql.RowsClose],
     Ret (inl (reflect.VSlice [demo.bob]))) /\
  snd (Query demo.no_table demo.scan_columns
             (reflect.Iface (reflect.TPtr (reflect.TSlice demo.User))
                            (reflect.VPtr (reflect.VSlice [demo.bob])))
             (demo.start []))
  <> Ret (inr (Trace ErrNotFound)).
Proof. split; [reflexivity|]. vm_compute. discriminate. Qed.

Lemma Query_single_first_row_witness :
  Query demo.no_table demo.scan_columns
        (reflect.Iface (reflect.TPtr demo.User) (reflect.VPtr (reflect.Zero demo.User)))
        (demo.start [[reflect.VInt 7; reflect.VString "bob"; reflect.VString "2017"];
                     [reflect.VInt 8]])
  = (mkWorld (set_limit (demo.users [[reflect.VInt 7; reflect.VString "bob";
                                      reflect.VString "2017"];
                                     [reflect.VInt 8]]) 1)
       [sql.DBQuery "select t.id, t.user_name, t.created from t limit 1";
        sql.RowsNext; sql.RowsScan; sql.RowsClose],
     Ret (inl (reflect.VStruct [reflect.VInt 7; reflect.VString "bob";
                                reflect.VString "2017"]))).
Proof.
  exact (Query_single_first_row demo.no_table _ _ demo.scan_columns
           demo.ID [demo.UserName; demo.CTime] (reflect.Zero demo.User)
           (demo.users [[reflect.VInt 7; reflect.VString "bob"; reflect.VString "2017"];
                        [reflect.VInt 8]]) []
           [reflect.VInt 7; reflect.VString "bob"; reflect.VString "2017"]
           [[reflect.VInt 8]]
           [reflect.TInt64; reflect.TString; reflect.TString]
           [reflect.VInt 7; reflect.VString "bob"; reflect.VString "2017"]
           eq_refl eq_refl eq_refl).
Defined.

Lemma Query_non_pointer_rejected_witness :
  Query demo.no_table demo.scan_columns (reflect.Iface demo.User demo.bob) (demo.start [])
  = (demo.start [], Ret (inr (Errorf "result type must be ptr, recv:struct"))) /\
  SQLQueryBuilder demo.no_table (reflect.Iface demo.User demo.bob) (demo.start [])
  = (demo.start [], Ret (""%string, Some (Errorf "result type must be ptr, recv:struct"))).
Proof.
  apply (Query_non_pointer_rejected demo.no_table _ _ demo.scan_columns
           (reflect.Iface demo.User demo.bob) (demo.start [])).
  discriminate.
Defined.

(** C8 as it is written fails on a collection whose elements are no records: a
    query into a pointer to a slice of [int] returns no error, it panics in
    [NumField]; nothing has reached the storage handle. *)
Lemma Query_slice_of_int_panics :
  Query demo.no_table demo.scan_columns
        (reflect.Iface (reflect.TPtr (reflect.TSlice reflect.TInt))
                       (reflect.VPtr (reflect.VSlice [])))
        (demo.start [])
  = (demo.start [], Panic "reflect: NumField of non-struct type") /\
  ~ (exists w e,
        Query demo.no_table demo.scan_columns
              (reflect.Iface (reflect.TPtr (reflect.TSlice reflect.TInt))
                             (reflect.VPtr (reflect.VSlice [])))
              (demo.start [])
        = (w, Ret (inr e))).
Proof.
  split; [reflexivity|]. intros (w & e & H). vm_compute in H. discriminate H.
Qed.

(** C2 on a record type whose only field is unexported.  [NumField] counts the
    field, so the record is not turned down; no column is written, the two
    bytes that are cut from the buffer belong to the keyword, and the
    statement goes to the storage handle. *)
Theorem unexported_only_record_compiled :
  Query demo.no_table demo.scan_columns
        (reflect.Iface (reflect.TPtr demo.Hidden)
                       (reflect.VPtr (reflect.VStruct [reflect.VString ""])))
        (demo.start [])
  = (mkWorld (set_limit (demo.users []) 1)
       [sql.DBQuery "selec from t limit 1"; sql.RowsNext; sql.RowsClose],
     Ret (inr (Trace ErrNotFound))) /\
  Insert demo.no_table
         (reflect.Iface demo.Hidden (reflect.VStruct [reflect.VString "x"]))
         (demo.start [])
  = (mkWorld (demo.users []) [sql.DBExec "insert into t) values) " []],
     Ret (1, None)) /\
  Update demo.no_table
         (reflect.Iface demo.Hidden (reflect.VStruct [reflect.VString "x"]))
         (demo.start [])
  = (mkWorld (demo.users []) [sql.DBExec "update `t` se" []], Ret (1, None)).
Proof. repeat split. Qed.

(** C5 on a record type with an embedded field of an unexported type and no
    default.  The field is not passed over, its column and its placeholder are
    written, and [Interface] refuses its value: the compilers panic, while a
    record whose bound fields are exported is compiled as the claim says. *)
Theorem embedded_unexported_field_panics :
  let derived := Some (reflect.VStruct [reflect.VStruct []; reflect.VString "bob"]) in
  let refused :=
      "reflect.Value.Interface: cannot return value obtained from unexported field or method"%string in
  SQLInsert demo.no_table (demo.users []) demo.Derived derived = Panic refused /\
  SQLUpdate demo.no_table (demo.users []) demo.Derived derived = Panic refused /\
  SQLInsert demo.no_table (demo.users []) demo.User (Some demo.bob)
  = Ret ("insert into t (user_name, created) values (?, now()) "%string,
         [reflect.VString "bob"]) /\
  SQLUpdate demo.no_table (demo.users []) demo.User (Some demo.bob)
  = Ret ("update `t` set `user_name`=?, `created`=now()"%string,
         [reflect.VString "bob"]).
Proof. repeat split. Qed.

(** * Further properties of the package *)

(** ** FieldEscape *)

Section FieldEscapeMore.

Variable upper_table : Z -> bool.

Lemma snake_from_no_upper (k : string) :
  forall prev, no_upper k = true -> snake_from prev k = k.
Proof.
  induction k as [|a k IH]; intros prev H; [reflexivity|].
  cbn [no_upper] in H. apply andb_true_iff in H. destruct H as [Ha Hk].
  cbn [snake_from]. destruct (upper_letter a); [discriminate Ha|].
  cbn [String.append]. now rewrite IH.
Qed.

Lemma lower_of_plain (a : ascii) :
  upper_letter a = true ->
  upper_letter (lower_of a) = false /\ (nat_of_ascii (lower_of a) <? 128)%nat = true.
Proof.
  destruct a as [[] [] [] [] [] [] [] []]; intros H; try discriminate H;
    split; reflexivity.
Qed.

Lemma snake_from_plain (k : string) :
  forall prev, ascii_only k = true ->
               ascii_only (snake_from prev k) = true /\ no_upper (snake_from prev k) = true.
Proof.
  induction k as [|a k IH]; intros prev H; [split; reflexivity|].
  cbn [ascii_only] in H. apply andb_true_iff in H. destruct H as [Ha Hk].
  destruct (IH (Some a) Hk) as [IH1 IH2]. cbn [snake_from].
  destruct (upper_letter a) eqn:Hup.
  - destruct (lower_of_plain a Hup) as [L1 L2].
    destruct prev as [p|]; [destruct (upper_letter p)|];
      cbn [String.append ascii_only no_upper]; rewrite ?L1, ?L2, ?IH1, ?IH2;
        split; reflexivity.
  - cbn [String.append ascii_only no_upper]. rewrite Ha, Hup, IH1, IH2.
    split; reflexivity.
Qed.

(** X1.  An identifier of ASCII characters without a capital is its own column
    name. *)
Theorem FieldEscape_lower_case_kept (k : string) :
  ascii_only k = true -> no_upper k = true -> FieldEscape upper_table k = k.
Proof.
  intros Ha Hu. rewrite (FieldEscape_ascii upper_table k Ha).
  now apply snake_from_no_upper.
Qed.

(** X2.  On an identifier of ASCII characters the result holds no capital, and
    escaping it again changes nothing. *)
Theorem FieldEscape_idempotent (k : string) :
  ascii_only k = true ->
  no_upper (FieldEscape upper_table k) = true /\
  FieldEscape upper_table (FieldEscape upper_table k) = FieldEscape upper_table k.
Proof.
  intros Ha. rewrite (FieldEscape_ascii upper_table k Ha).
  destruct (snake_from_plain k None Ha) as [H1 H2]. fold (snake_case k) in H1, H2.
  split; [exact H2|].
  rewrite (FieldEscape_ascii upper_table _ H1). now apply snake_from_no_upper.
Qed.

End FieldEscapeMore.

(** ** The condition *)

Section ConditionMore.

Variables row driver_error : Type.

Implicit Types (s : Stmt row driver_error) (bs : string).

(** X3.  [SQLCondition] only appends, and what it appends does not depend on
    the buffer. *)
Theorem SQLCondition_appends s bs :
  SQLCondition s bs = (bs ++ SQLCondition s "")%string.
Proof.
  rewrite (SQLCondition_append _ _ s bs), (SQLCondition_append _ _ s "").
  reflexivity.
Qed.

(** X4.  Without a sort expression the order is not written. *)
Theorem order_without_sort_ignored s (o : string) bs :
  sort s = ""%string -> SQLCondition (set_order s o) bs = SQLCondition s bs.
Proof.
  intros H. unfold SQLCondition. cbn [set_order where_ sort order group limit offset].
  rewrite H. reflexivity.
Qed.

(** X5.  Without a positive limit there is no limit clause, and the offset is
    not written: the descriptor compiles as one without limit and offset. *)
Theorem offset_without_limit_ignored s bs :
  limit s <= 0 ->
  SQLCondition s bs = (bs ++ text.clauses s)%string /\
  forall n, SQLCondition (set_offset s n) bs = SQLCondition s bs.
Proof.
  intros H. assert (L : (limit s >? 0) = false) by (rewrite Z.gtb_ltb; apply Z.ltb_ge; lia).
  split.
  - rewrite SQLCondition_append. unfold text.condition. rewrite L.
    now rewrite append_nil_r.
  - intros n. unfold SQLCondition.
    cbn [set_offset where_ sort order group limit offset]. rewrite L. reflexivity.
Qed.

End ConditionMore.

(** ** The query compiler *)

Section QueryCompilerMore.

Variable upper_table : Z -> bool.
Variables row driver_error : Type.
Variable Scan : row -> list reflect.Type_ -> driver_error + list reflect.Value.

Implicit Types (s : Stmt row driver_error) (fs : list reflect.StructField)
         (tr : list sql.event) (w : World row driver_error).

Lemma select_fields_selected (ft : string) fs :
  forall bs, select_fields upper_table ft fs bs
             = (bs ++ listed (selected upper_table ft fs))%string.
Proof.
  unfold selected. induction fs as [|f fs IH]; intros bs.
  - cbn. now rewrite append_nil_r.
  - cbn [select_fields filter]. destruct (unexported f); cbn [negb map]; [apply IH|].
    rewrite IH. cbn [listed]. unfold qualified.
    destruct (strings.ContainsByte (column upper_table f) "."); cbn [negb];
      rewrite ?append_assoc; reflexivity.
Qed.

Lemma SplitFirst_no_separator (t : string) (c : ascii) :
  strings.ContainsByte t c = false -> strings.SplitFirst t c = t.
Proof.
  induction t as [|a t IH]; intros H; [reflexivity|].
  cbn in *. destruct (Ascii.eqb a c); [discriminate H|]. now rewrite IH.
Qed.

Lemma SplitFirst_first (a b : string) (c : ascii) :
  strings.ContainsByte a c = false ->
  strings.SplitFirst (a ++ String c b) c = a.
Proof.
  induction a as [|x a IH]; intros H.
  - cbn. now rewrite Ascii.eqb_refl.
  - cbn in *. destruct (Ascii.eqb x c); [discriminate H|]. now rewrite IH.
Qed.

(** X6.  For a record type with at least one field that is not passed over,
    [SQLQuery] lists the columns of these fields in the order of the fields,
    separated by [, ]; a column without a dot is written after the first
    table and a dot, a column with a dot as it is.  Then come the table and
    the condition. *)
Theorem SQLQuery_columns s fs (c : string) (cs : list string) :
  selected upper_table (strings.SplitFirst (table s) ",") fs = c :: cs ->
  SQLQuery upper_table s (reflect.TStruct fs)
  = Ret ("select " ++ String.concat ", " (c :: cs) ++ " from " ++ table s
           ++ SQLCondition s "")%string.
Proof.
  intros H. rewrite SQLQuery_struct. f_equal.
  unfold text.select, text.select_from.
  rewrite select_fields_selected, H, chop2_listed.
  rewrite (SQLCondition_append _ _ s ""). unfold text.condition.
  repeat first [rewrite append_assoc | rewrite append_nil_r
                   | progress cbn [String.append]];
    reflexivity.
Qed.

(** X7.  The table of the descriptor may be a list [a,b]: the columns are
    written after [a], the statement selects from the whole list; a table
    without a comma is the qualifier itself. *)
Theorem SQLQuery_first_table s fs (a b : string) :
  strings.ContainsByte a "," = false ->
  (table s = a ++ "," ++ b)%string \/ table s = a ->
  SQLQuery upper_table s (reflect.TStruct fs)
  = Ret (chop2 ("select " ++ listed (selected upper_table a fs)) ++ " from " ++ table s
           ++ SQLCondition s "")%string.
Proof.
  intros Ha Ht. rewrite SQLQuery_struct. f_equal.
  unfold text.select, text.select_from.
  assert (E : strings.SplitFirst (table s) "," = a).
  { destruct Ht as [-> | ->];
      [now apply SplitFirst_first | now apply SplitFirst_no_separator]. }
  rewrite E, select_fields_selected.
  rewrite (SQLCondition_append _ _ s ""). unfold text.condition.
  repeat first [rewrite append_assoc | rewrite append_nil_r
                   | progress cbn [String.append]];
    reflexivity.
Qed.

(** X8.  [SQLCount] and [SQLQuery] end alike: after the table comes what
    [SQLCondition] writes for the descriptor, the limit clause included. *)
Theorem SQLCount_same_condition s fs :
  SQLCount s = ("select count(*) from " ++ table s ++ SQLCondition s "")%string /\
  exists cols : string,
    SQLQuery upper_table s (reflect.TStruct fs)
    = Ret (cols ++ " from " ++ table s ++ SQLCondition s "")%string.
Proof.
  split.
  - unfold SQLCount. rewrite SQLCondition_append, (SQLCondition_append _ _ s "").
    repeat first [rewrite append_assoc | rewrite append_nil_r
                   | progress cbn [String.append]];
    reflexivity.
  - exists (chop2 (select_fields upper_table (strings.SplitFirst (table s) ",") fs
                                 "select ")).
    rewrite SQLQuery_struct. f_equal.
    unfold text.select, text.select_from.
    rewrite (SQLCondition_append _ _ s ""). unfold text.condition.
    repeat first [rewrite append_assoc | rewrite append_nil_r
                 | progress cbn [String.append]];
    reflexivity.
Qed.

(** X9.  For a pointer to a collection of records [SQLQueryBuilder] leaves the
    descriptor as it is, the limit too, and returns the statement that
    [Query] sends to the storage handle. *)
Theorem SQLQueryBuilder_collection (f : reflect.StructField) fs (v : reflect.Value) s tr :
  let target :=
      reflect.Iface (reflect.TPtr (reflect.TSlice (reflect.TStruct (f :: fs)))) v in
  exists statement : string,
    SQLQuery upper_table s (reflect.TStruct (f :: fs)) = Ret statement /\
    SQLQueryBuilder upper_table target (mkWorld s tr)
    = (mkWorld s tr, Ret (statement, None)) /\
    exists evs r,
      Query upper_table Scan target (mkWorld s tr)
      = (mkWorld s (tr ++ sql.DBQuery statement :: evs), r).
Proof.
  intros target. exists (text.select upper_table s (f :: fs)).
  split; [apply SQLQuery_struct|]. split.
  - unfold target, SQLQueryBuilder. run.
    cbn [reflect.TypeOf reflect.ValueOf reflect.KindOf reflect.Kind_eqb negb
         reflect.Elem reflect.NumField reflect.Fields res_bind
         w_stmt w_trace List.length Z.of_nat Z.eqb].
    rewrite SQLQuery_struct. reflexivity.
  - apply Query_collection_frame.
Qed.

(** X10.  [SQLQueryBuilder] never reaches the storage handle, whatever the
    target, and the only change it makes to the descriptor is the limit 1. *)
Theorem SQLQueryBuilder_no_storage (result : reflect.iface) w :
  let w' := fst (SQLQueryBuilder upper_table result w) in
  w_trace w' = w_trace w /\
  (w_stmt w' = w_stmt w \/ w_stmt w' = set_limit (w_stmt w) 1).
Proof.
  destruct result as [t v]. unfold SQLQueryBuilder. run.
  cbn [reflect.TypeOf].
  destruct t as [ | | | |e|e|fs]; try (split; [reflexivity | now left]).
  cbn [reflect.KindOf reflect.Kind_eqb negb reflect.Elem].
  destruct e as [ | | | |e'|e'|fs]; cbn [reflect.KindOf reflect.Kind_eqb reflect.Elem
                                          reflect.NumField reflect.Fields res_bind
                                          fst w_stmt w_trace];
    try (split; [reflexivity | now right]).
  - destruct e' as [ | | | |e''|e''|fs];
      cbn [reflect.NumField reflect.Fields res_bind fst w_stmt w_trace];
      try (split; [reflexivity | now left]).
    destruct (Z.of_nat (List.length fs) =? 0); [split; [reflexivity | now left]|].
    rewrite SQLQuery_struct. split; [reflexivity | now left].
  - destruct (Z.of_nat (List.length fs) =? 0);
      cbn [fst w_stmt w_trace]; [split; [reflexivity | now right]|].
    rewrite SQLQuery_struct. split; [reflexivity | now right].
Qed.

(** X11.  [SQLUpdate] is the update without condition followed by what
    [SQLCondition] writes for the descriptor; [SQLInsert] does not look at the
    predicate, the sort, the group, the offset or the limit. *)
Theorem SQLUpdate_condition s (rt : reflect.Type_) (rv : option reflect.Value) :
  SQLUpdate upper_table s rt rv
  = match SQLUpdate upper_table (NewStmt (db s) (table s)) rt rv with
    | Ret (t0, refs) => Ret ((t0 ++ SQLCondition s "")%string, refs)
    | Panic msg => Panic msg
    end /\
  SQLInsert upper_table s rt rv
  = SQLInsert upper_table (NewStmt (db s) (table s)) rt rv.
Proof.
  split; [|reflexivity].
  unfold SQLUpdate. cbn [table NewStmt].
  destruct (reflect.Fields rt) as [fs|msg]; cbn [res_bind]; [|reflexivity].
  destruct (update_fields upper_table rv 0 fs _ []) as [[bs refs]|msg];
    cbn [res_bind]; [|reflexivity].
  destruct (bytes.Truncate bs (bytes.Len bs - 2)) as [b|msg]; cbn [res_bind];
    [|reflexivity].
  rewrite !SQLCondition_append. unfold text.condition at 2, text.clauses.
  cbn [where_ sort order group limit offset String.eqb negb Z.gtb Z.compare].
  cbn [String.append]. now rewrite append_nil_r.
Qed.

End QueryCompilerMore.

(** ** The executor *)

Section ExecutorMore.

Variable upper_table : Z -> bool.
Variables row driver_error : Type.
Variable Scan : row -> list reflect.Type_ -> driver_error + list reflect.Value.

Implicit Types (s : Stmt row driver_error) (fs : list reflect.StructField)
         (tr : list sql.event) (w : World row driver_error).

(** The loop on rows that are all scanned, for a collection. *)
Lemma rows_loop_collect fs (refs : list reflect.Type_)
      (vals_of : row -> list reflect.Value) (rows : list row) :
  row_refs fs = Ret refs ->
  (forall r, In r rows -> Scan r refs = inr (vals_of r)) ->
  forall (l : list reflect.Value) w,
    rows_loop Scan fs reflect.Slice (Some (reflect.VSlice l)) rows w
    = (mkWorld (w_stmt w) (w_trace w ++ scans rows ++ [sql.RowsNext]),
       Ret (Exhausted
              (Some (reflect.VSlice
                       (l ++ map (fun r => reflect.VStruct (scanned fs (vals_of r)))
                          rows))))).
Proof.
  intros Hrefs. induction rows as [|r rows IH]; intros Hscan l w.
  - cbn [rows_loop scans flat_map map]. run. cbn. now rewrite app_nil_r.
  - cbn [rows_loop]. run. rewrite Hrefs. cbn [w_stmt w_trace].
    rewrite (Hscan r (or_introl eq_refl)).
    cbn [reflect.Kind_eqb reflect.Append w_stmt w_trace].
    rewrite IH by (intros r' Hr'; apply Hscan; now right).
    cbn [w_stmt w_trace scans flat_map map app].
    now rewrite <- !app_assoc.
Qed.

(** The loop up to the first row that is not scanned. *)
Lemma rows_loop_abort fs (refs : list reflect.Type_)
      (vals_of : row -> list reflect.Value) (good : list row) (bad : row)
      (rest : list row) (e : driver_error) :
  row_refs fs = Ret refs ->
  (forall r, In r good -> Scan r refs = inr (vals_of r)) ->
  Scan bad refs = inl e ->
  forall (l : list reflect.Value) w,
    rows_loop Scan fs reflect.Slice (Some (reflect.VSlice l)) (good ++ bad :: rest)%list w
    = (mkWorld (w_stmt w) (w_trace w ++ scans good ++ [sql.RowsNext; sql.RowsScan]),
       Ret (Returned (inr (Trace (Driver e))))).
Proof.
  intros Hrefs. induction good as [|r good IH]; intros Hscan Hbad l w.
  - cbn [app rows_loop scans flat_map]. run. rewrite Hrefs. cbn [w_stmt w_trace].
    rewrite Hbad. cbn. now rewrite <- !app_assoc.
  - cbn [app rows_loop]. run. rewrite Hrefs. cbn [w_stmt w_trace].
    rewrite (Hscan r (or_introl eq_refl)).
    cbn [reflect.Kind_eqb reflect.Append w_stmt w_trace].
    rewrite IH by (try assumption; intros r' Hr'; apply Hscan; now right).
    cbn [w_stmt w_trace scans flat_map app].
    now rewrite <- !app_assoc.
Qed.

(** The loop only asks the cursor and scans. *)
Lemma rows_loop_steps fs kind (rows : list row) :
  forall rv w, exists steps,
    fst (rows_loop Scan fs kind rv rows w) = mkWorld (w_stmt w) (w_trace w ++ steps)
    /\ Forall cursor_step steps.
Proof.
  assert (N : cursor_step sql.RowsNext) by now left.
  assert (S : cursor_step sql.RowsScan) by now right.
  induction rows as [|r rest IH]; intros rv w; cbn [rows_loop]; run.
  - exists [sql.RowsNext]. split; [reflexivity | now constructor].
  - cbn [w_stmt w_trace]. destruct (row_refs fs) as [refs|msg].
    + cbn [w_stmt w_trace]. destruct (Scan r refs) as [e|vals].
      * exists [sql.RowsNext; sql.RowsScan]. cbn. rewrite <- app_assoc.
        split; [reflexivity | now repeat constructor].
      * destruct (reflect.Kind_eqb kind reflect.Struct).
        -- exists [sql.RowsNext; sql.RowsScan]. cbn. rewrite <- app_assoc.
           split; [reflexivity | now repeat constructor].
        -- destruct (reflect.Append rv _) as [rv'|msg].
           ++ destruct (IH rv' (mkWorld (w_stmt w)
                                  ((w_trace w ++ [sql.RowsNext]) ++ [sql.RowsScan])))
                as (steps & Hsteps & Hall).
              exists (([sql.RowsNext; sql.RowsScan] ++ steps)%list).
              rewrite Hsteps. cbn [w_stmt w_trace]. rewrite <- !app_assoc.
              split; [reflexivity | now repeat constructor].
           ++ exists [sql.RowsNext; sql.RowsScan]. cbn. rewrite <- app_assoc.
              split; [reflexivity | now repeat constructor].
    + exists [sql.RowsNext]. split; [reflexivity | now constructor].
Qed.

(** X12.  For a pointer to a collection, when every row of the result set is
    scanned, [Query] stores the records of the rows, in the order of the
    cursor, after what the collection held, and returns [nil]; the cursor is
    asked once more than there are rows and is released. *)
Theorem Query_collects_rows (f : reflect.StructField) fs (l : list reflect.Value) s tr
        (rows : list row) (refs : list reflect.Type_)
        (vals_of : row -> list reflect.Value) :
  sql.Query (db s) (text.select upper_table s (f :: fs)) = inr rows ->
  rows <> [] ->
  row_refs (f :: fs) = Ret refs ->
  (forall r, In r rows -> Scan r refs = inr (vals_of r)) ->
  Query upper_table Scan
    (reflect.Iface (reflect.TPtr (reflect.TSlice (reflect.TStruct (f :: fs))))
       (reflect.VPtr (reflect.VSlice l)))
    (mkWorld s tr)
  = (mkWorld s
       (tr ++ sql.DBQuery (text.select upper_table s (f :: fs))
           :: scans rows ++ [sql.RowsNext; sql.RowsClose]),
     Ret (inl (reflect.VSlice
                 (l ++ map (fun r => reflect.VStruct (scanned (f :: fs) (vals_of r)))
                    rows)))).
Proof.
  intros Hq Hne Hrefs Hscan. enter_Query SQLQuery_struct. rewrite Hq.
  cbn [reflect.ValueElem].
  rewrite (rows_loop_collect (f :: fs) refs vals_of rows Hrefs Hscan).
  cbn [w_stmt w_trace reflect.Kind_eqb reflect.Len].
  destruct rows as [|r rows]; [now elim Hne|].
  rewrite length_app. cbn [map List.length].
  replace (Z.of_nat (List.length l + S (List.length (map _ rows))) =? 0) with false
    by (symmetry; apply Z.eqb_neq; lia).
  cbn [w_stmt w_trace]. rewrite <- !app_assoc. reflexivity.
Qed.

(** X13.  A row that is not scanned ends the query: [Query] returns the traced
    error of the driver, the rows after it are not asked for, the cursor is
    released and nothing is stored in the target. *)
Theorem Query_scan_error (f : reflect.StructField) fs (l : list reflect.Value) s tr
        (good : list row) (bad : row) (rest : list row)
        (refs : list reflect.Type_) (vals_of : row -> list reflect.Value)
        (e : driver_error) :
  sql.Query (db s) (text.select upper_table s (f :: fs)) = inr (good ++ bad :: rest)%list ->
  row_refs (f :: fs) = Ret refs ->
  (forall r, In r good -> Scan r refs = inr (vals_of r)) ->
  Scan bad refs = inl e ->
  Query upper_table Scan
    (reflect.Iface (reflect.TPtr (reflect.TSlice (reflect.TStruct (f :: fs))))
       (reflect.VPtr (reflect.VSlice l)))
    (mkWorld s tr)
  = (mkWorld s
       (tr ++ sql.DBQuery (text.select upper_table s (f :: fs))
           :: scans good ++ [sql.RowsNext; sql.RowsScan; sql.RowsClose]),
     Ret (inr (Trace (Driver e)))).
Proof.
  intros Hq Hrefs Hscan Hbad. enter_Query SQLQuery_struct. rewrite Hq.
  cbn [reflect.ValueElem].
  rewrite (rows_loop_abort (f :: fs) refs vals_of good bad rest e Hrefs Hscan Hbad).
  cbn [w_stmt w_trace]. rewrite <- !app_assoc. reflexivity.
Qed.

(** X14.  When the storage handle refuses the statement, [Query] returns its
    traced error; no cursor was opened, so none is asked or released.  For a
    pointer to a record the descriptor has the limit 1 all the same. *)
Theorem Query_driver_error (f : reflect.StructField) fs (v : reflect.Value) s tr
        (e : driver_error) :
  (sql.Query (db s) (text.select upper_table (set_limit s 1) (f :: fs)) = inl e ->
   Query upper_table Scan
     (reflect.Iface (reflect.TPtr (reflect.TStruct (f :: fs))) v) (mkWorld s tr)
   = (mkWorld (set_limit s 1)
        (tr ++ [sql.DBQuery (text.select upper_table (set_limit s 1) (f :: fs))]),
      Ret (inr (Trace (Driver e))))) /\
  (sql.Query (db s) (text.select upper_table s (f :: fs)) = inl e ->
   Query upper_table Scan
     (reflect.Iface (reflect.TPtr (reflect.TSlice (reflect.TStruct (f :: fs)))) v)
     (mkWorld s tr)
   = (mkWorld s (tr ++ [sql.DBQuery (text.select upper_table s (f :: fs))]),
      Ret (inr (Trace (Driver e))))).
Proof.
  split; intros H; enter_Query SQLQuery_struct; rewrite H; reflexivity.
Qed.

(** X15.  Whatever the rows and however the query ends, by a return or by a
    panic, a cursor that was opened is released once, at the end, and between
    the statement and the release the storage handle only sees the cursor
    asked and rows scanned: one statement, no execution. *)
Theorem Query_cursor_released (f : reflect.StructField) fs (v : reflect.Value) s tr
        (rows : list row) :
  (sql.Query (db s) (text.select upper_table (set_limit s 1) (f :: fs)) = inr rows ->
   exists steps : list sql.event,
     w_trace (fst (Query upper_table Scan
                     (reflect.Iface (reflect.TPtr (reflect.TStruct (f :: fs))) v)
                     (mkWorld s tr)))
     = (tr ++ sql.DBQuery (text.select upper_table (set_limit s 1) (f :: fs))
          :: (steps ++ [sql.RowsClose]))%list
     /\ Forall cursor_step steps) /\
  (sql.Query (db s) (text.select upper_table s (f :: fs)) = inr rows ->
   exists steps : list sql.event,
     w_trace (fst (Query upper_table Scan
                     (reflect.Iface
                        (reflect.TPtr (reflect.TSlice (reflect.TStruct (f :: fs)))) v)
                     (mkWorld s tr)))
     = (tr ++ sql.DBQuery (text.select upper_table s (f :: fs))
          :: (steps ++ [sql.RowsClose]))%list
     /\ Forall cursor_step steps).
Proof.
  split; intros H; enter_Query SQLQuery_struct; rewrite H;
    match goal with |- context [rows_loop Scan ?a ?b ?c ?d ?w0] =>
      destruct (rows_loop_steps a b d c w0) as (steps & Hsteps & Hall);
      destruct (rows_loop Scan a b c d w0) as [w1 [out|msg]]
    end; cbn [fst w_stmt w_trace] in Hsteps; subst w1; exists steps;
      (split; [|exact Hall]); split_cases;
        cbn [fst w_stmt w_trace reflect.Kind_eqb reflect.Len];
        rewrite <- ?app_assoc; reflexivity.
Qed.

(** X16.  A nil pointer is not turned down: the statement is sent, and when
    the result set is empty the query panics once the cursor is exhausted,
    the cursor being released. *)
Theorem Query_nil_pointer (f : reflect.StructField) fs s tr :
  (sql.Query (db s) (text.select upper_table (set_limit s 1) (f :: fs)) = inr [] ->
   exists msg,
     Query upper_table Scan
       (reflect.Iface (reflect.TPtr (reflect.TStruct (f :: fs))) reflect.VNil)
       (mkWorld s tr)
     = (mkWorld (set_limit s 1)
          (tr ++ [sql.DBQuery (text.select upper_table (set_limit s 1) (f :: fs));
                  sql.RowsNext; sql.RowsClose]),
        Panic msg)) /\
  (sql.Query (db s) (text.select upper_table s (f :: fs)) = inr [] ->
   exists msg,
     Query upper_table Scan
       (reflect.Iface (reflect.TPtr (reflect.TSlice (reflect.TStruct (f :: fs))))
          reflect.VNil)
       (mkWorld s tr)
     = (mkWorld s
          (tr ++ [sql.DBQuery (text.select upper_table s (f :: fs));
                  sql.RowsNext; sql.RowsClose]),
        Panic msg)).
Proof.
  split; intros H; eexists; enter_Query SQLQuery_struct; rewrite H; cbn;
    rewrite <- !app_assoc; reflexivity.
Qed.

End ExecutorMore.

(** ** Count, Insert, Update *)

Section MutationMore.

Variable upper_table : Z -> bool.
Variables row driver_error : Type.
Variable Scan : row -> list reflect.Type_ -> driver_error + list reflect.Value.

Implicit Types (s : Stmt row driver_error) (fs : list reflect.StructField)
         (vs : list reflect.Value) (tr : list sql.event) (w : World row driver_error).

(** X17.  [Count] sends the statement of [SQLCount], asks the cursor once and
    scans one [int64]: when the first row is scanned as the integer [n] it
    returns [n] and [nil], also for 0; the descriptor is left as it is, the
    rows after the first are not asked for and the cursor is released. *)
Theorem Count_first_row s tr (r : row) (rest : list row) (n : Z)
        (more : list reflect.Value) :
  sql.Query (db s) (SQLCount s) = inr (r :: rest) ->
  Scan r [reflect.TInt64] = inr (reflect.VInt n :: more) ->
  Count Scan (mkWorld s tr)
  = (mkWorld s (tr ++ [sql.DBQuery (SQLCount s); sql.RowsNext; sql.RowsScan;
                       sql.RowsClose]),
     Ret (n, None)).
Proof.
  intros Hq Hs. unfold Count. run. cbn [w_stmt w_trace]. rewrite Hq.
  cbn [w_stmt w_trace]. rewrite Hs. cbn [w_stmt w_trace].
  rewrite <- !app_assoc; reflexivity.
Qed.

(** X18.  [Count] returns 0 with a traced error when the storage handle
    refuses the statement (no cursor is opened then), when the row is not
    scanned, and when the result set has no row: the answer of [rows.Next] is
    not looked at and the scan of the exhausted cursor fails. *)
Theorem Count_errors s tr :
  (forall e, sql.Query (db s) (SQLCount s) = inl e ->
             Count Scan (mkWorld s tr)
             = (mkWorld s (tr ++ [sql.DBQuery (SQLCount s)]),
                Ret (0, Some (Trace (Driver e))))) /\
  (forall r rest e,
      sql.Query (db s) (SQLCount s) = inr (r :: rest) ->
      Scan r [reflect.TInt64] = inl e ->
      Count Scan (mkWorld s tr)
      = (mkWorld s (tr ++ [sql.DBQuery (SQLCount s); sql.RowsNext; sql.RowsScan;
                           sql.RowsClose]),
         Ret (0, Some (Trace (Driver e))))) /\
  (sql.Query (db s) (SQLCount s) = inr [] ->
   Count Scan (mkWorld s tr)
   = (mkWorld s (tr ++ [sql.DBQuery (SQLCount s); sql.RowsNext; sql.RowsScan;
                        sql.RowsClose]),
      Ret (0, Some (Trace errRowsClosed)))).
Proof.
  repeat split.
  - intros e Hq. unfold Count. run. cbn [w_stmt w_trace]. rewrite Hq; reflexivity.
  - intros r rest e Hq Hs. unfold Count. run. cbn [w_stmt w_trace]. rewrite Hq.
    cbn [w_stmt w_trace]. rewrite Hs. cbn [w_stmt w_trace].
    rewrite <- !app_assoc; reflexivity.
  - intros Hq. unfold Count. run. cbn [w_stmt w_trace]. rewrite Hq.
    cbn [w_stmt w_trace]. rewrite <- !app_assoc; reflexivity.
Qed.

(** X19.  [Insert] and [Update] take a record or a pointer to a record: both
    give the same run. *)
Theorem pointer_or_record (t : reflect.Type_) (v : reflect.Value) w :
  reflect.KindOf t <> reflect.Ptr ->
  Insert upper_table (reflect.Iface (reflect.TPtr t) (reflect.VPtr v)) w
  = Insert upper_table (reflect.Iface t v) w /\
  Update upper_table (reflect.Iface (reflect.TPtr t) (reflect.VPtr v)) w
  = Update upper_table (reflect.Iface t v) w.
Proof.
  intros H.
  assert (E : deref (reflect.Iface (reflect.TPtr t) (reflect.VPtr v))
              = deref (reflect.Iface t v)).
  { unfold deref. cbn [reflect.TypeOf reflect.ValueOf reflect.KindOf
                       reflect.Kind_eqb reflect.Elem res_bind reflect.ValueElem].
    destruct t; try reflexivity. now elim H. }
  unfold Insert, Update. now rewrite E.
Qed.

Lemma entries_fields fs vs (e : entry) (es : list entry) :
  entries upper_table fs vs = e :: es -> (Z.of_nat (List.length fs) =? 0) = false.
Proof.
  intros H. destruct fs as [|f fs]; [discriminate H|]. reflexivity.
Qed.

(** X20.  For a record with at least one entry, whose bound fields are
    exported, [Insert] executes the INSERT statement once with the bound
    arguments and returns what the driver gives as the last inserted id, with
    its error as it is; an error of the execution itself is returned traced,
    with 0.  The descriptor is left as it is. *)
Theorem Insert_executes s tr fs vs (e : entry) (es : list entry) :
  List.length vs = List.length fs ->
  bound_exported fs = true ->
  entries upper_table fs vs = e :: es ->
  let statement :=
      ("insert into " ++ table s ++ " ("
         ++ String.concat ", " (map entry_col (e :: es)) ++ ") values ("
         ++ String.concat ", " (map entry_text (e :: es)) ++ ") ")%string in
  let args := bound_args (e :: es) in
  Insert upper_table (reflect.Iface (reflect.TStruct fs) (reflect.VStruct vs))
         (mkWorld s tr)
  = (mkWorld s (tr ++ [sql.DBExec statement args]),
     Ret (match sql.Exec (db s) statement args with
          | inl x => (0, Some (Trace (Driver x)))
          | inr r => (fst (sql.LastInsertId r), option_map Driver (snd (sql.LastInsertId r)))
          end)).
Proof.
  intros Hlen Hexp Hes statement args. unfold Insert, deref. run.
  cbn [reflect.TypeOf reflect.ValueOf reflect.KindOf reflect.Kind_eqb
       reflect.NumField reflect.Fields res_bind w_stmt w_trace].
  rewrite (entries_fields fs vs e es Hes). cbn [w_stmt w_trace].
  rewrite (SQLInsert_entries upper_table _ _ s fs vs e es Hlen Hexp Hes).
  cbn [w_stmt w_trace]. fold statement. fold args.
  destruct (sql.Exec (db s) statement args) as [x|r]; [reflexivity|].
  destruct (sql.LastInsertId r) as [n o]. reflexivity.
Qed.

(** X21.  Likewise [Update] executes the UPDATE statement, with the condition
    of the descriptor, once with the bound arguments and returns the number
    of rows the driver reports. *)
Theorem Update_executes s tr fs vs (e : entry) (es : list entry) :
  List.length vs = List.length fs ->
  bound_exported fs = true ->
  entries upper_table fs vs = e :: es ->
  let statement :=
      ("update `" ++ table s ++ "` set "
         ++ String.concat ", "
              (map (fun e => "`" ++ entry_col e ++ "`=" ++ entry_text e) (e :: es))
         ++ SQLCondition s "")%string in
  let args := bound_args (e :: es) in
  Update upper_table (reflect.Iface (reflect.TStruct fs) (reflect.VStruct vs))
         (mkWorld s tr)
  = (mkWorld s (tr ++ [sql.DBExec statement args]),
     Ret (match sql.Exec (db s) statement args with
          | inl x => (0, Some (Trace (Driver x)))
          | inr r => (fst (sql.RowsAffected r), option_map Driver (snd (sql.RowsAffected r)))
          end)).
Proof.
  intros Hlen Hexp Hes statement args.
  assert (E : SQLCondition s "" = text.condition s)
    by (rewrite SQLCondition_append; reflexivity).
  subst statement args. rewrite E. unfold Update, deref. run.
  cbn [reflect.TypeOf reflect.ValueOf reflect.KindOf reflect.Kind_eqb
       reflect.NumField reflect.Fields res_bind w_stmt w_trace].
  rewrite (entries_fields fs vs e es Hes). cbn [w_stmt w_trace].
  rewrite (SQLUpdate_entries upper_table _ _ s fs vs e es Hlen Hexp Hes).
  cbn [w_stmt w_trace].
  match goal with |- context [sql.Exec ?d ?t ?a] =>
    destruct (sql.Exec d t a) as [x|r] end; [reflexivity|].
  destruct (sql.RowsAffected r) as [n o]. reflexivity.
Qed.

(** X22.  Whatever the data, [Insert] and [Update] leave the descriptor as it
    is and reach the storage handle at most once, with an execution; they
    never send a query. *)
Theorem mutation_frame (data : reflect.iface) w :
  (exists evs,
      fst (Insert upper_table data w) = mkWorld (w_stmt w) (w_trace w ++ evs) /\
      (evs = [] \/ exists t a, evs = [sql.DBExec t a])) /\
  (exists evs,
      fst (Update upper_table data w) = mkWorld (w_stmt w) (w_trace w ++ evs) /\
      (evs = [] \/ exists t a, evs = [sql.DBExec t a])).
Proof.
  assert (Z0 : forall w0 : World row driver_error,
             w0 = mkWorld (w_stmt w0) (w_trace w0 ++ [])).
  { intros [s0 t0]. cbn. now rewrite app_nil_r. }
  split.
  - unfold Insert. run. destruct (deref data) as [[rt rv]|msg];
      [|exists []; split; [apply Z0 | now left]].
    destruct (reflect.NumField rt) as [n|msg];
      [|exists []; split; [apply Z0 | now left]].
    destruct (n =? 0); [exists []; split; [apply Z0 | now left]|].
    cbn [w_stmt w_trace].
    destruct (SQLInsert upper_table (w_stmt w) rt rv) as [[t a]|msg];
      [|exists []; split; [apply Z0 | now left]].
    exists [sql.DBExec t a]. split; [|right; now exists t, a].
    cbn [w_stmt w_trace].
    destruct (sql.Exec (db (w_stmt w)) t a) as [x|r]; [reflexivity|].
    destruct (sql.LastInsertId r). reflexivity.
  - unfold Update. run. destruct (deref data) as [[rt rv]|msg];
      [|exists []; split; [apply Z0 | now left]].
    destruct (reflect.NumField rt) as [n|msg];
      [|exists []; split; [apply Z0 | now left]].
    destruct (n =? 0); [exists []; split; [apply Z0 | now left]|].
    cbn [w_stmt w_trace].
    destruct (SQLUpdate upper_table (w_stmt w) rt rv) as [[t a]|msg];
      [|exists []; split; [apply Z0 | now left]].
    exists [sql.DBExec t a]. split; [|right; now exists t, a].
    cbn [w_stmt w_trace].
    destruct (sql.Exec (db (w_stmt w)) t a) as [x|r]; [reflexivity|].
    destruct (sql.RowsAffected r). reflexivity.
Qed.

End MutationMore.

(** ** The builder *)

Section BuilderMore.

Variable upper_table : Z -> bool.
Variables row driver_error : Type.
Variable Sprintf : string -> list reflect.Value -> string.

Implicit Types (s : Stmt row driver_error) (w : World row driver_error).

(** X23.  The six methods of the builder together fix the predicate, the sort,
    the order, the group, the offset and the limit, whatever the descriptor
    held; the table and the storage handle are kept and the storage handle is
    not reached.  A predicate without arguments is taken as it is, one with
    arguments is formatted. *)
Theorem builder_chain (f x o g : string) (n m : Z) (a : reflect.Value)
        (args : list reflect.Value) w :
  bind (Where Sprintf f [])
       (fun _ => bind (Sort x)
       (fun _ => bind (Order o)
       (fun _ => bind (Group g)
       (fun _ => bind (Offset n)
       (fun _ => Limit m))))) w
  = (mkWorld (mkStmt (table (w_stmt w)) f x o g n m (db (w_stmt w))) (w_trace w),
     Ret tt) /\
  Where Sprintf f (a :: args) w
  = (mkWorld (set_where (w_stmt w) (Sprintf f (a :: args))) (w_trace w), Ret tt).
Proof. destruct w as [s tr]. split; reflexivity. Qed.

(** X27.  When a field whose value is bound is not exported, [SQLInsert] and
    [SQLUpdate] panic in [Interface], whatever the other fields are. *)
Theorem mutation_refused (s : Stmt row driver_error) (fs : list reflect.StructField)
        (vs : list reflect.Value) :
  List.length vs = List.length fs ->
  bound_exported fs = false ->
  let refused :=
      "reflect.Value.Interface: cannot return value obtained from unexported field or method"%string in
  SQLInsert upper_table s (reflect.TStruct fs) (Some (reflect.VStruct vs)) = Panic refused /\
  SQLUpdate upper_table s (reflect.TStruct fs) (Some (reflect.VStruct vs)) = Panic refused.
Proof.
  intros Hlen Hexp refused. unfold SQLInsert, SQLUpdate.
  cbn [reflect.Fields res_bind].
  rewrite (insert_fields_refused upper_table fs vs [] _ _ _ Hlen Hexp).
  rewrite (update_fields_refused upper_table fs vs [] _ _ Hlen Hexp).
  split; reflexivity.
Qed.

End BuilderMore.

(** ** The further properties at the sample data *)

Lemma FieldEscape_lower_case_kept_witness :
  FieldEscape demo.no_table "user_name" = "user_name"%string.
Proof. apply FieldEscape_lower_case_kept; reflexivity. Defined.

Lemma FieldEscape_idempotent_witness :
  no_upper (FieldEscape demo.no_table "UserID") = true /\
  FieldEscape demo.no_table (FieldEscape demo.no_table "UserID")
  = FieldEscape demo.no_table "UserID".
Proof. apply FieldEscape_idempotent; reflexivity. Defined.

Lemma order_without_sort_ignored_witness :
  SQLCondition (set_order (demo.users []) "desc") "select 1"
  = SQLCondition (demo.users []) "select 1".
Proof. apply order_without_sort_ignored; reflexivity. Defined.

Lemma offset_without_limit_ignored_witness :
  SQLCondition (set_where (demo.users []) "id = 1") "x" = "x where id = 1"%string /\
  forall n, SQLCondition (set_offset (set_where (demo.users []) "id = 1") n) "x"
            = SQLCondition (set_where (demo.users []) "id = 1") "x".
Proof.
  apply (offset_without_limit_ignored _ _ (set_where (demo.users []) "id = 1") "x").
  cbn. lia.
Defined.

Lemma SQLQuery_columns_witness :
  SQLQuery demo.no_table (demo.joined []) (reflect.TStruct [demo.UserName; demo.secret; demo.Account])
  = Ret "select user.user_name, account.balance from user,account"%string.
Proof.
  exact (SQLQuery_columns demo.no_table _ _ (demo.joined [])
           [demo.UserName; demo.secret; demo.Account]
           "user.user_name" ["account.balance"] eq_refl).
Defined.

Lemma SQLQuery_first_table_witness :
  SQLQuery demo.no_table (demo.joined []) (reflect.TStruct [demo.UserName; demo.Account])
  = Ret "select user.user_name, account.balance from user,account"%string.
Proof.
  exact (SQLQuery_first_table demo.no_table _ _ (demo.joined [])
           [demo.UserName; demo.Account] "user" "account" eq_refl
           (or_introl eq_refl)).
Defined.

Lemma Query_collects_rows_witness :
  Query demo.no_table demo.scan_columns
        (reflect.Iface (reflect.TPtr (reflect.TSlice demo.User))
                       (reflect.VPtr (reflect.VSlice [demo.bob])))
        (demo.start [[reflect.VInt 8; reflect.VString "eve"; reflect.VString "2018"];
                     [reflect.VInt 9; reflect.VString "al"; reflect.VString "2019"]])
  = (mkWorld (demo.users [[reflect.VInt 8; reflect.VString "eve"; reflect.VString "2018"];
                          [reflect.VInt 9; reflect.VString "al"; reflect.VString "2019"]])
       [sql.DBQuery "select t.id, t.user_name, t.created from t";
        sql.RowsNext; sql.RowsScan; sql.RowsNext; sql.RowsScan;
        sql.RowsNext; sql.RowsClose],
     Ret (inl (reflect.VSlice
                 [demo.bob;
                  reflect.VStruct [reflect.VInt 8; reflect.VString "eve";
                                   reflect.VString "2018"];
                  reflect.VStruct [reflect.VInt 9; reflect.VString "al";
                                   reflect.VString "2019"]]))).
Proof.
  refine (Query_collects_rows demo.no_table _ _ demo.scan_columns
            demo.ID [demo.UserName; demo.CTime] [demo.bob]
            (demo.users [[reflect.VInt 8; reflect.VString "eve"; reflect.VString "2018"];
                         [reflect.VInt 9; reflect.VString "al"; reflect.VString "2019"]])
            []
            [[reflect.VInt 8; reflect.VString "eve"; reflect.VString "2018"];
             [reflect.VInt 9; reflect.VString "al"; reflect.VString "2019"]]
            [reflect.TInt64; reflect.TString; reflect.TString]
            (fun r => r) eq_refl _ eq_refl _).
  - discriminate.
  - intros r [<- | [<- | []]]; reflexivity.
Defined.

Lemma Query_scan_error_witness :
  Query demo.no_table demo.scan_columns
        (reflect.Iface (reflect.TPtr (reflect.TSlice demo.User))
                       (reflect.VPtr (reflect.VSlice [])))
        (demo.start [[reflect.VInt 8; reflect.VString "eve"; reflect.VString "2018"];
                     [reflect.VInt 9];
                     [reflect.VInt 10; reflect.VString "al"; reflect.VString "2019"]])
  = (mkWorld (demo.users [[reflect.VInt 8; reflect.VString "eve"; reflect.VString "2018"];
                          [reflect.VInt 9];
                          [reflect.VInt 10; reflect.VString "al"; reflect.VString "2019"]])
       [sql.DBQuery "select t.id, t.user_name, t.created from t";
        sql.RowsNext; sql.RowsScan; sql.RowsNext; sql.RowsScan; sql.RowsClose],
     Ret (inr (Trace (Driver "sql: wrong number of destination arguments in Scan"%string)))).
Proof.
  refine (Query_scan_error demo.no_table _ _ demo.scan_columns
            demo.ID [demo.UserName; demo.CTime] []
            (demo.users [[reflect.VInt 8; reflect.VString "eve"; reflect.VString "2018"];
                         [reflect.VInt 9];
                         [reflect.VInt 10; reflect.VString "al"; reflect.VString "2019"]])
            []
            [[reflect.VInt 8; reflect.VString "eve"; reflect.VString "2018"]]
            [reflect.VInt 9]
            [[reflect.VInt 10; reflect.VString "al"; reflect.VString "2019"]]
            [reflect.TInt64; reflect.TString; reflect.TString]
            (fun r => r) _ eq_refl eq_refl _ eq_refl).
  intros r [<- | []]; reflexivity.
Defined.

Lemma Query_driver_error_witness :
  Query demo.no_table demo.scan_columns
        (reflect.Iface (reflect.TPtr demo.User) (reflect.VPtr demo.bob))
        (mkWorld (NewStmt demo.refusing "t") [])
  = (mkWorld (set_limit (NewStmt demo.refusing "t") 1)
       [sql.DBQuery "select t.id, t.user_name, t.created from t limit 1"],
     Ret (inr (Trace (Driver "connection refused"%string)))).
Proof.
  exact (proj1 (Query_driver_error demo.no_table _ _ demo.scan_columns
                  demo.ID [demo.UserName; demo.CTime] (reflect.VPtr demo.bob)
                  (NewStmt demo.refusing "t") [] "connection refused"%string)
               eq_refl).
Defined.

Lemma Query_cursor_released_witness :
  exists steps : list sql.event,
    w_trace (fst (Query demo.no_table demo.scan_columns
                    (reflect.Iface (reflect.TPtr demo.User) (reflect.VPtr demo.bob))
                    (demo.start [[reflect.VInt 8]])))
    = ([] ++ sql.DBQuery (text.select demo.no_table (set_limit (demo.users [[reflect.VInt 8]]) 1)
                            [demo.ID; demo.UserName; demo.CTime])
          :: (steps ++ [sql.RowsClose]))%list
    /\ Forall cursor_step steps.
Proof.
  exact (proj1 (Query_cursor_released demo.no_table _ _ demo.scan_columns
                  demo.ID [demo.UserName; demo.CTime] (reflect.VPtr demo.bob)
                  (demo.users [[reflect.VInt 8]]) [] [[reflect.VInt 8]])
               eq_refl).
Defined.

Lemma Query_nil_pointer_witness :
  exists msg,
    Query demo.no_table demo.scan_columns
          (reflect.Iface (reflect.TPtr demo.User) reflect.VNil) (demo.start [])
    = (mkWorld (set_limit (demo.users []) 1)
         ([] ++ [sql.DBQuery (text.select demo.no_table (set_limit (demo.users []) 1)
                                [demo.ID; demo.UserName; demo.CTime]);
                 sql.RowsNext; sql.RowsClose]),
       Panic msg).
Proof.
  exact (proj1 (Query_nil_pointer demo.no_table _ _ demo.scan_columns
                  demo.ID [demo.UserName; demo.CTime] (demo.users []) [])
               eq_refl).
Defined.

Lemma Count_first_row_witness :
  Count demo.scan_columns (demo.start [[reflect.VInt 0]])
  = (mkWorld (demo.users [[reflect.VInt 0]])
       [sql.DBQuery "select count(*) from t"; sql.RowsNext; sql.RowsScan; sql.RowsClose],
     Ret (0, None)).
Proof.
  exact (Count_first_row _ _ demo.scan_columns (demo.users [[reflect.VInt 0]]) []
           [reflect.VInt 0] [] 0 [] eq_refl eq_refl).
Defined.

Lemma Count_errors_witness :
  Count demo.scan_columns (mkWorld (NewStmt demo.refusing "t") [])
  = (mkWorld (NewStmt demo.refusing "t") [sql.DBQuery "select count(*) from t"],
     Ret (0, Some (Trace (Driver "connection refused"%string)))) /\
  Count demo.scan_columns (demo.start [[]])
  = (mkWorld (demo.users [[]])
       [sql.DBQuery "select count(*) from t"; sql.RowsNext; sql.RowsScan; sql.RowsClose],
     Ret (0, Some (Trace (Driver "sql: wrong number of destination arguments in Scan"%string)))) /\
  Count demo.scan_columns (demo.start [])
  = (mkWorld (demo.users [])
       [sql.DBQuery "select count(*) from t"; sql.RowsNext; sql.RowsScan; sql.RowsClose],
     Ret (0, Some (Trace errRowsClosed))).
Proof.
  split; [|split].
  - exact (proj1 (Count_errors _ _ demo.scan_columns (NewStmt demo.refusing "t") [])
                 "connection refused"%string eq_refl).
  - exact (proj1 (proj2 (Count_errors _ _ demo.scan_columns (demo.users [[]]) []))
                 [] [] _ eq_refl eq_refl).
  - exact (proj2 (proj2 (Count_errors _ _ demo.scan_columns (demo.users []) []))
                 eq_refl).
Defined.

Lemma pointer_or_record_witness :
  Insert demo.no_table (reflect.Iface (reflect.TPtr demo.User) (reflect.VPtr demo.bob))
         (demo.start [])
  = Insert demo.no_table (reflect.Iface demo.User demo.bob) (demo.start []) /\
  Update demo.no_table (reflect.Iface (reflect.TPtr demo.User) (reflect.VPtr demo.bob))
         (demo.start [])
  = Update demo.no_table (reflect.Iface demo.User demo.bob) (demo.start []).
Proof. apply pointer_or_record. discriminate. Defined.

Lemma Insert_executes_witness :
  Insert demo.no_table (reflect.Iface demo.User demo.bob) (demo.start [])
  = (mkWorld (demo.users [])
       [sql.DBExec "insert into t (user_name, created) values (?, now()) "
                   [reflect.VString "bob"]],
     Ret (1, None)).
Proof.
  exact (Insert_executes demo.no_table _ _ (demo.users []) []
           [demo.ID; demo.UserName; demo.CTime]
           [reflect.VInt 7; reflect.VString "bob"; reflect.VString ""]
           (Bound "user_name" (reflect.VString "bob")) [Literal "created" "now()"]
           eq_refl eq_refl eq_refl).
Defined.

Lemma Update_executes_witness :
  Update demo.no_table (reflect.Iface demo.User demo.bob)
         (mkWorld (set_where (demo.users []) "id = 7") [])
  = (mkWorld (set_where (demo.users []) "id = 7")
       [sql.DBExec "update `t` set `user_name`=?, `created`=now() where id = 7"
                   [reflect.VString "bob"]],
     Ret (1, None)).
Proof.
  exact (Update_executes demo.no_table _ _ (set_where (demo.users []) "id = 7") []
           [demo.ID; demo.UserName; demo.CTime]
           [reflect.VInt 7; reflect.VString "bob"; reflect.VString ""]
           (Bound "user_name" (reflect.VString "bob")) [Literal "created" "now()"]
           eq_refl eq_refl eq_refl).
Defined.

Lemma mutation_refused_witness :
  SQLInsert demo.no_table (demo.users []) demo.Derived
            (Some (reflect.VStruct [reflect.VStruct []; reflect.VString "bob"]))
  = Panic "reflect.Value.Interface: cannot return value obtained from unexported field or method" /\
  SQLUpdate demo.no_table (demo.users []) demo.Derived
            (Some (reflect.VStruct [reflect.VStruct []; reflect.VString "bob"]))
  = Panic "reflect.Value.Interface: cannot return value obtained from unexported field or method".
Proof.
  exact (mutation_refused demo.no_table _ _ (demo.users []) [demo.base; demo.UserName]
           [reflect.VStruct []; reflect.VString "bob"] eq_refl eq_refl).
Defined.

Lemma Query_empty_result_kept_witness :
  Query demo.no_table demo.scan_columns
        (reflect.Iface (reflect.TPtr (reflect.TSlice demo.User))
                       (reflect.VPtr (reflect.VSlice [demo.bob])))
        (demo.start [])
  = (mkWorld (demo.users [])
       [sql.DBQuery "select t.id, t.user_name, t.created from t";
        sql.RowsNext; sql.RowsClose],
     Ret (inl (reflect.VSlice [demo.bob]))).
Proof.
  exact (Query_empty_result_kept demo.no_table _ _ demo.scan_columns
           demo.ID [demo.UserName; demo.CTime] demo.bob [] (demo.users []) [] eq_refl).
Defined.

Lemma Query_collection_of_non_records_witness :
  Query demo.no_table demo.scan_columns
        (reflect.Iface (reflect.TPtr (reflect.TSlice (reflect.TPtr demo.User)))
                       (reflect.VPtr (reflect.VSlice [])))
        (demo.start [])
  = (demo.start [], Panic "reflect: NumField of non-struct type").
Proof.
  apply (Query_collection_of_non_records demo.no_table _ _ demo.scan_columns).
  discriminate.
Defined.
